(** * Jarvis gesture core: classifier, temporal tracker and action dispatcher

    Shallow embedding of
      - [jarvis/gestures/mappings.py]   (gesture enumeration, action table),
      - [jarvis/gestures/detector.py]   (the [HandLandmarks] container and
                                         what [detect] builds from a result),
      - [jarvis/gestures/recognizer.py] (classification, hold tracking),
      - [jarvis/main.py]                ([_handle_gesture], [_move_cursor]
                                         and the gesture loop's iteration).

    Conventions.
      - Python floats are rationals ([Q]); [int(x)] on a float is truncation
        toward zero ([py_int]).  Rounding of IEEE arithmetic is not modelled.
      - [np.linalg.norm] is a library function: the development is
        parametric in it (class [LinAlg]).
      - [time.time()] is an input of the function that reads it.
      - The calls to [pyautogui] and to the speech helper are recorded, in
        program order, in the list each function returns; console [print]s
        are left out. *)

From Stdlib Require Import ZArith QArith Qround Bool List String Lia.
Import ListNotations.

Open Scope Z_scope.

(** ** Python arithmetic on floats and ints *)

Module Py.

(** [a < b] on floats. *)
Definition ltb (a b : Q) : bool := negb (Qle_bool b a).
(** [a >= b] on floats. *)
Definition geb (a b : Q) : bool := Qle_bool b a.

(** [int(x)]: truncation toward zero. *)
Definition py_int (x : Q) : Z := Z.quot (Qnum x) (Zpos (Qden x)).

(** [max(a, b)] and [min(a, b)]: the first argument unless the second is
    strictly better. *)
Definition fmax (a b : Q) : Q := if ltb a b then b else a.
Definition fmin (a b : Q) : Q := if ltb b a then b else a.

(** [x in l] for a list of strings. *)
Definition mem (x : string) (l : list string) : bool :=
  existsb (String.eqb x) l.

(** A one-dimensional [ndarray] of floats. *)
Definition ndarray := list Q.

Definition idx (v : ndarray) (i : nat) : Q := nth i v 0%Q.

(** [v[:2]]. *)
Definition take2 (v : ndarray) : ndarray := firstn 2 v.

(** [u - v], element by element. *)
Fixpoint vsub (u v : ndarray) : ndarray :=
  match u, v with
  | a :: u', b :: v' => (a - b)%Q :: vsub u' v'
  | _, _ => []
  end.

(** [np.clip(x, lo, hi)]. *)
Definition clip (x lo hi : Q) : Q := fmin (fmax x lo) hi.

(** [for _ in range(n): body] where the body is one recorded call. *)
Definition times {A} (n : Z) (a : A) : list A := repeat a (Z.to_nat n).

End Py.

(** [np.linalg.norm] on one-dimensional arrays. *)
Class LinAlg := { norm : Py.ndarray -> Q }.

(** ** gestures/mappings.py *)

Module Mappings.

Inductive GestureType : Type :=
| NONE | OPEN_PALM | FIST | POINT | PEACE | THUMBS_UP | THUMBS_DOWN
| PINCH | THREE_FINGERS | ROCK | OK_SIGN | HOOK.

Definition GestureType_eq_dec (a b : GestureType) : {a = b} + {a <> b}.
Proof. decide equality. Defined.

(** [a == b] on the enumeration. *)
Definition gesture_eqb (a b : GestureType) : bool :=
  match a, b with
  | NONE, NONE | OPEN_PALM, OPEN_PALM | FIST, FIST | POINT, POINT
  | PEACE, PEACE | THUMBS_UP, THUMBS_UP | THUMBS_DOWN, THUMBS_DOWN
  | PINCH, PINCH | THREE_FINGERS, THREE_FINGERS | ROCK, ROCK
  | OK_SIGN, OK_SIGN | HOOK, HOOK => true
  | _, _ => false
  end.

Record GestureAction := mkGestureAction {
  gesture : GestureType;
  name : string;
  description : string;
  action_type : string;
  command : option string;
  continuous : bool
}.

(** The dictionary, in insertion order; its keys are pairwise distinct. *)
Definition GESTURE_ACTIONS : list (GestureType * GestureAction) :=
  [ (OPEN_PALM, mkGestureAction OPEN_PALM "Cursor Mode"
       "Move cursor following palm position" "mouse" (Some "move") true);
    (FIST, mkGestureAction FIST "Drag Mode"
       "Click and drag while fist is held" "mouse" (Some "drag") true);
    (POINT, mkGestureAction POINT "Left Click"
       "Single left click when gesture detected" "mouse"
       (Some "left_click") false);
    (PEACE, mkGestureAction PEACE "Right Click"
       "Right click when peace sign shown" "mouse"
       (Some "right_click") false);
    (THUMBS_UP, mkGestureAction THUMBS_UP "Scroll Up"
       "Scroll up while thumb up is held" "mouse" (Some "scroll_up") true);
    (THUMBS_DOWN, mkGestureAction THUMBS_DOWN "Scroll Down"
       "Scroll down while thumb down is held" "mouse"
       (Some "scroll_down") true);
    (PINCH, mkGestureAction PINCH "Precision Mode"
       "Fine cursor control when pinching" "mouse" (Some "precision") true);
    (THREE_FINGERS, mkGestureAction THREE_FINGERS "Middle Click"
       "Middle click for opening links in new tab" "mouse"
       (Some "middle_click") false);
    (ROCK, mkGestureAction ROCK "Voice Activate"
       "Activate voice command mode" "system" (Some "voice_activate") false);
    (OK_SIGN, mkGestureAction OK_SIGN "Confirm"
       "Confirm current action or selection" "keyboard" (Some "enter")
       false) ]%string.

(** [d.get(k)]. *)
Fixpoint dict_get {V} (d : list (GestureType * V)) (k : GestureType)
  : option V :=
  match d with
  | [] => None
  | (k', v) :: d' => if gesture_eqb k' k then Some v else dict_get d' k
  end.

Definition get_gesture_action (g : GestureType) : option GestureAction :=
  dict_get GESTURE_ACTIONS g.

(** [g.name] for a member of the enumeration. *)
Definition gesture_name (g : GestureType) : string :=
  match g with
  | NONE => "NONE" | OPEN_PALM => "OPEN_PALM" | FIST => "FIST"
  | POINT => "POINT" | PEACE => "PEACE" | THUMBS_UP => "THUMBS_UP"
  | THUMBS_DOWN => "THUMBS_DOWN" | PINCH => "PINCH"
  | THREE_FINGERS => "THREE_FINGERS" | ROCK => "ROCK"
  | OK_SIGN => "OK_SIGN" | HOOK => "HOOK"
  end.

(** One dictionary of [get_all_gestures]: the values under the keys
    ["gesture"], ["action"], ["description"] and ["continuous"]. *)
Record GestureInfo := mkGestureInfo {
  info_gesture : string;
  info_action : string;
  info_description : string;
  info_continuous : bool
}.

Definition get_all_gestures : list GestureInfo :=
  map (fun '(g, a) =>
         mkGestureInfo (gesture_name g) (name a) (description a)
                       (continuous a))
      GESTURE_ACTIONS.

End Mappings.

(** ** gestures/detector.py: the landmark container *)

Module Detector.
Import Py.

Record HandLandmarks := mkHand {
  landmarks : list ndarray;        (* 21 rows of x, y, z *)
  handedness : string;
  confidence : Q;
  bbox : Z * Z * Z * Z             (* x, y, w, h *)
}.

(** [self.landmarks[i]].  The detector builds 21 rows for every hand and
    every index used below is a constant under 21. *)
Definition lm (h : HandLandmarks) (i : nat) : ndarray :=
  nth i (landmarks h) [].

Definition wrist (h : HandLandmarks) := lm h 0.
Definition thumb_tip (h : HandLandmarks) := lm h 4.
Definition index_tip (h : HandLandmarks) := lm h 8.

(** [np.mean(self.landmarks[[0, 5, 9, 13, 17]], axis=0)]. *)
Definition palm_center (h : HandLandmarks) : ndarray :=
  map (fun j =>
         ((idx (lm h 0) j + idx (lm h 5) j + idx (lm h 9) j
           + idx (lm h 13) j + idx (lm h 17) j) / 5)%Q)
      [0; 1; 2]%nat.

(** The [fingers] dictionary of [get_extended_fingers], in insertion
    order. *)
Definition fingers : list (string * list nat) :=
  [ ("thumb", [1; 2; 3; 4]); ("index", [5; 6; 7; 8]);
    ("middle", [9; 10; 11; 12]); ("ring", [13; 14; 15; 16]);
    ("pinky", [17; 18; 19; 20]) ]%string%nat.

(** The five digit names. *)
Definition five_digits : list string := map fst fingers.

Section WithNorm.
Context `{LinAlg}.

Definition finger_is_extended (h : HandLandmarks)
           (finger_landmarks : list nat) : bool :=
  let pip := lm h (nth 1 finger_landmarks 0%nat) in
  let tip := lm h (nth 3 finger_landmarks 0%nat) in
  let tip_dist := norm (vsub (take2 tip) (take2 (wrist h))) in
  let pip_dist := norm (vsub (take2 pip) (take2 (wrist h))) in
  ltb pip_dist tip_dist.

Definition get_extended_fingers (h : HandLandmarks) : list string :=
  let thumb_tip := lm h 4 in
  let thumb_mcp := lm h 2 in
  let thumb :=
    if String.eqb (handedness h) "Right" then
      if ltb (idx thumb_tip 0) (idx thumb_mcp 0) then ["thumb"%string]
      else []
    else
      if ltb (idx thumb_mcp 0) (idx thumb_tip 0) then ["thumb"%string]
      else [] in
  thumb ++
  map fst (filter (fun f => finger_is_extended h (snd f)) (tl fingers)).

End WithNorm.

(** *** [HandDetector.detect], after MediaPipe has processed the frame *)

(** [min(xs)] and [max(xs)] on a sequence of floats: the first smallest
    (largest) element; [None] stands for the [ValueError] Python raises on
    an empty sequence. *)
Definition py_min (xs : list Q) : option Q :=
  match xs with
  | [] => None
  | x :: xs' => Some (fold_left (fun m y => if ltb y m then y else m) xs' x)
  end.

Definition py_max (xs : list Q) : option Q :=
  match xs with
  | [] => None
  | x :: xs' => Some (fold_left (fun m y => if ltb m y then y else m) xs' x)
  end.

(** One hand as MediaPipe reports it: the landmarks' [x], [y], [z]
    relative to the frame, and the label and score of
    [handedness.classification[0]]. *)
Record RawHand := mkRawHand {
  raw_landmarks : list (Q * Q * Q);
  raw_label : string;
  raw_score : Q
}.

(** [np.array([[lm.x * w, lm.y * h, lm.z * w] for lm in ...])]. *)
Definition scale_landmarks (raw : list (Q * Q * Q)) (w h : Z)
  : list ndarray :=
  map (fun '(x, y, z) =>
         [x * inject_Z w; y * inject_Z h; z * inject_Z w]%Q) raw.

(** The bounding box [(x_min, y_min, x_max - x_min, y_max - y_min)]. *)
Definition bounding_box (landmarks : list ndarray) : option (Z * Z * Z * Z) :=
  let x_coords := map (fun row => idx row 0) landmarks in
  let y_coords := map (fun row => idx row 1) landmarks in
  match py_min x_coords, py_max x_coords, py_min y_coords, py_max y_coords
  with
  | Some xmin, Some xmax, Some ymin, Some ymax =>
    let x_min := py_int xmin in
    let x_max := py_int xmax in
    let y_min := py_int ymin in
    let y_max := py_int ymax in
    Some (x_min, y_min, x_max - x_min, y_max - y_min)
  | _, _, _, _ => None
  end.

(** The body of the loop over the detected hands. *)
Definition detect_hand (w h : Z) (r : RawHand) : option HandLandmarks :=
  let landmarks := scale_landmarks (raw_landmarks r) w h in
  match bounding_box landmarks with
  | Some b => Some (mkHand landmarks (raw_label r) (raw_score r) b)
  | None => None
  end.

(** [hands.append(...)] for each detected hand, in order; [None] as soon
    as one of them raises. *)
Fixpoint detect_hands (w h : Z) (results : list RawHand)
  : option (list HandLandmarks) :=
  match results with
  | [] => Some []
  | r :: results' =>
    match detect_hand w h r with
    | Some hand =>
      match detect_hands w h results' with
      | Some hands => Some (hand :: hands)
      | None => None
      end
    | None => None
    end
  end.

(** [detect]; [available] is [self._available], [frame_shape] is
    [frame.shape[:2]] and [results] what MediaPipe found (empty when
    [results.multi_hand_landmarks] is empty or [None]). *)
Definition detect (available : bool) (frame_shape : Z * Z)
           (results : list RawHand) : option (list HandLandmarks) :=
  if negb available then Some []
  else
    let '(h, w) := frame_shape in
    detect_hands w h results.

End Detector.


(** ** config.py *)

Module Config.

Definition GESTURE_HOLD_TIME : Q := (5 # 100)%Q.
Definition SCREEN_MARGIN : Z := 30.

End Config.

(** ** gestures/recognizer.py *)

Module Recognizer.
Import Py Mappings Detector.

Record GestureState := mkGestureState {
  gs_gesture : GestureType;
  gs_confidence : Q;
  start_time : Q;
  position : Q * Q;
  is_held : bool
}.

(** The recognizer's attributes. *)
Record GestureRecognizer := mkRecognizer {
  _last_gesture : option GestureType;
  _gesture_start_time : Q;
  _gesture_position : Q * Q
}.

Definition PINCH_THRESHOLD : Q := (22 # 100)%Q.
Definition FINGER_CLOSE_THRESHOLD : Q := (18 # 100)%Q.

(** [GestureRecognizer.__init__]. *)
Definition new_recognizer : GestureRecognizer :=
  mkRecognizer None 0 ((1 # 2)%Q, (1 # 2)%Q).

(** The thumb-only block of [_classify_gesture]; [None] when control falls
    through to the tests that follow it. *)
Definition thumb_vertical (extended : list string) (hand : HandLandmarks)
  : option GestureType :=
  if (List.length extended =? 1)%nat && mem "thumb" extended then
    let thumb_y := idx (thumb_tip hand) 1 in
    let wrist_y := idx (wrist hand) 1 in
    if ltb thumb_y (wrist_y - 15) then Some THUMBS_UP
    else if ltb (wrist_y + 15) thumb_y then Some THUMBS_DOWN
    else None
  else None.

Definition _classify_gesture (extended : list string) (thumb_index_dist : Q)
           (hand : HandLandmarks) : GestureType :=
  let num_extended := List.length extended in
  if ltb thumb_index_dist PINCH_THRESHOLD then
    if mem "middle" extended && mem "ring" extended && mem "pinky" extended
    then OK_SIGN
    else PINCH
  else if (num_extended =? 0)%nat then FIST
  else
    match thumb_vertical extended hand with
    | Some g => g
    | None =>
      if mem "index" extended && (num_extended <=? 2)%nat
         && ((num_extended =? 1)%nat
             || ((num_extended =? 2)%nat && mem "thumb" extended))
      then POINT
      else if (num_extended =? 2)%nat && mem "index" extended
              && mem "middle" extended
      then PEACE
      else if (num_extended =? 2)%nat && mem "index" extended
              && mem "pinky" extended
      then ROCK
      else if (num_extended =? 3)%nat && mem "index" extended
              && mem "middle" extended && mem "ring" extended
      then THREE_FINGERS
      else if (3 <=? num_extended)%nat then OPEN_PALM
      else NONE
    end.

Section WithNorm.
Context `{LinAlg}.

Definition _normalized_distance (point1 point2 : ndarray)
           (hand : HandLandmarks) : Q :=
  let hand_size := norm (vsub (lm hand 9) (wrist hand)) in
  if ltb hand_size 1 then 1%Q
  else
    let distance := norm (vsub (take2 point1) (take2 point2)) in
    (distance / hand_size)%Q.

(** [recognize]; [current_time] is the value [time.time()] returns. *)
Definition recognize (self : GestureRecognizer) (hand : HandLandmarks)
           (current_time : Q) : GestureRecognizer * GestureState :=
  let extended := get_extended_fingers hand in
  let thumb_index_dist :=
    _normalized_distance (thumb_tip hand) (index_tip hand) hand in
  let gesture := _classify_gesture extended thumb_index_dist hand in
  let self' :=
    match _last_gesture self with
    | Some g =>
      if gesture_eqb gesture g then self
      else mkRecognizer (Some gesture) current_time (_gesture_position self)
    | None =>
      mkRecognizer (Some gesture) current_time (_gesture_position self)
    end in
  let hold_duration := (current_time - _gesture_start_time self')%Q in
  let held := geb hold_duration Config.GESTURE_HOLD_TIME in
  let palm := palm_center hand in
  let '(bx, by_, bw, bh) := bbox hand in
  let frame_w := (inject_Z bx + inject_Z bw / 2 + 200)%Q in
  let frame_h := (inject_Z by_ + inject_Z bh / 2 + 200)%Q in
  let pos_x := clip (idx palm 0 / frame_w) 0 1 in
  let pos_y := clip (idx palm 1 / frame_h) 0 1 in
  (self',
   mkGestureState gesture (confidence hand) (_gesture_start_time self')
                  (pos_x, pos_y) held).

(** [reset]. *)
Definition reset (self : GestureRecognizer) : GestureRecognizer :=
  mkRecognizer None 0 (_gesture_position self).

End WithNorm.

End Recognizer.


(** ** main.py: the controller's gesture dispatch *)

Module Main.
Import Py Mappings Detector Recognizer.

(** The device and speech calls [_handle_gesture] makes:
    [pyautogui.moveTo], [click], [rightClick], [middleClick], [mouseDown],
    [mouseUp], [scroll], [press] and [self._say]. *)
Inductive Call : Type :=
| moveTo (x y : Z)
| click
| rightClick
| middleClick
| mouseDown
| mouseUp
| scroll (clicks : Z)
| press (key : string)
| _say (text : string).

Definition Call_eq_dec (a b : Call) : {a = b} + {a <> b}.
Proof. decide equality; auto using Z.eq_dec, string_dec. Defined.

(** The attributes of [JarvisController] the gesture path reads or writes. *)
Record JarvisController := mkController {
  screen_width : Z;
  screen_height : Z;
  _last_cursor_pos : Z * Z;
  _gesture_cooldown : Q;
  _dragging : bool;
  _volume_mode : bool;
  _volume_start_y : Q;
  _current_volume : Z;
  _selection_mode : bool;
  _selection_start : option (Z * Z)
}.

(** [__init__]; [size] is what [pyautogui.size()] returns. *)
Definition new_controller (size : Z * Z) : JarvisController :=
  mkController (fst size) (snd size) (0, 0) 0 false false 0 50 false None.

Definition set_last_cursor_pos (s : JarvisController) (p : Z * Z) :=
  mkController (screen_width s) (screen_height s) p (_gesture_cooldown s)
    (_dragging s) (_volume_mode s) (_volume_start_y s) (_current_volume s)
    (_selection_mode s) (_selection_start s).

Definition set_gesture_cooldown (s : JarvisController) (t : Q) :=
  mkController (screen_width s) (screen_height s) (_last_cursor_pos s) t
    (_dragging s) (_volume_mode s) (_volume_start_y s) (_current_volume s)
    (_selection_mode s) (_selection_start s).

Definition set_dragging (s : JarvisController) (b : bool) :=
  mkController (screen_width s) (screen_height s) (_last_cursor_pos s)
    (_gesture_cooldown s) b (_volume_mode s) (_volume_start_y s)
    (_current_volume s) (_selection_mode s) (_selection_start s).

Definition set_volume_mode (s : JarvisController) (b : bool) :=
  mkController (screen_width s) (screen_height s) (_last_cursor_pos s)
    (_gesture_cooldown s) (_dragging s) b (_volume_start_y s)
    (_current_volume s) (_selection_mode s) (_selection_start s).

Definition set_volume_start_y (s : JarvisController) (y : Q) :=
  mkController (screen_width s) (screen_height s) (_last_cursor_pos s)
    (_gesture_cooldown s) (_dragging s) (_volume_mode s) y
    (_current_volume s) (_selection_mode s) (_selection_start s).

Definition set_current_volume (s : JarvisController) (v : Z) :=
  mkController (screen_width s) (screen_height s) (_last_cursor_pos s)
    (_gesture_cooldown s) (_dragging s) (_volume_mode s) (_volume_start_y s)
    v (_selection_mode s) (_selection_start s).

Definition set_selection_mode (s : JarvisController) (b : bool) :=
  mkController (screen_width s) (screen_height s) (_last_cursor_pos s)
    (_gesture_cooldown s) (_dragging s) (_volume_mode s) (_volume_start_y s)
    (_current_volume s) b (_selection_start s).

Definition set_selection_start (s : JarvisController) (p : option (Z * Z)) :=
  mkController (screen_width s) (screen_height s) (_last_cursor_pos s)
    (_gesture_cooldown s) (_dragging s) (_volume_mode s) (_volume_start_y s)
    (_current_volume s) (_selection_mode s) p.

(** *** [_move_cursor] *)

Definition smoothing : Q := (3 # 10)%Q.

(** [int(last + (screen - last) * (1 - smoothing))], the expression the
    source writes once for each axis. *)
Definition smooth (last screen : Z) : Z :=
  py_int (inject_Z last
          + (inject_Z screen - inject_Z last) * (1 - smoothing))%Q.

(** The first half of [_move_cursor]: the palm mapped to the screen and
    clamped to the margins; this is the raw position smoothing aims at.
    Camera frames have positive width and height, so the divisors are not
    zero. *)
Definition screen_target (self : JarvisController) (palm_pos : ndarray)
           (frame_w frame_h : Z) : Z * Z :=
  let margin_x := (inject_Z frame_w * (2 # 10))%Q in
  let margin_y := (inject_Z frame_h * (2 # 10))%Q in
  let norm_x :=
    ((idx palm_pos 0 - margin_x) / (inject_Z frame_w - 2 * margin_x))%Q in
  let norm_y :=
    ((idx palm_pos 1 - margin_y) / (inject_Z frame_h - 2 * margin_y))%Q in
  let norm_x := fmax 0 (fmin 1 norm_x) in
  let norm_y := fmax 0 (fmin 1 norm_y) in
  let screen_x := py_int (norm_x * inject_Z (screen_width self)) in
  let screen_y := py_int (norm_y * inject_Z (screen_height self)) in
  let screen_x :=
    Z.max Config.SCREEN_MARGIN
          (Z.min screen_x (screen_width self - Config.SCREEN_MARGIN)) in
  let screen_y :=
    Z.max Config.SCREEN_MARGIN
          (Z.min screen_y (screen_height self - Config.SCREEN_MARGIN)) in
  (screen_x, screen_y).

(** The second half: smoothing against [_last_cursor_pos], where [(0, 0)]
    stands for no movement yet. *)
Definition smooth_towards (last screen : Z * Z) : Z * Z :=
  let '(screen_x, screen_y) := screen in
  let '(last_x, last_y) := last in
  let '(last_x, last_y) :=
    if (last_x =? 0) && (last_y =? 0) then (screen_x, screen_y)
    else (last_x, last_y) in
  (smooth last_x screen_x, smooth last_y screen_y).

Definition _move_cursor (self : JarvisController) (palm_pos : ndarray)
           (frame_w frame_h : Z) : JarvisController * list Call :=
  let screen := screen_target self palm_pos frame_w frame_h in
  let '(smooth_x, smooth_y) := smooth_towards (_last_cursor_pos self) screen in
  (set_last_cursor_pos self (smooth_x, smooth_y), [moveTo smooth_x smooth_y]).

(** *** [_handle_gesture] *)

(** The body of the [elif gesture == PINCH] branch. *)
Definition pinch_branch (self : JarvisController) (held : bool)
           (palm : ndarray) : JarvisController * list Call :=
  if held then
    if negb (_volume_mode self) then
      (set_volume_start_y (set_volume_mode self true) (idx palm 1), [])
    else
      let delta_y := (_volume_start_y self - idx palm 1)%Q in
      let volume_change := py_int (delta_y / 3) in
      let new_volume :=
        Z.max 0 (Z.min 100 (_current_volume self + volume_change)) in
      if negb (new_volume =? _current_volume self) then
        let presses :=
          if _current_volume self <? new_volume then
            times (Z.min 5 (new_volume - _current_volume self))
                  (press "volumeup")
          else
            times (Z.min 5 (_current_volume self - new_volume))
                  (press "volumedown") in
        (set_volume_start_y (set_current_volume self new_volume)
                            (idx palm 1),
         presses)
      else (self, [])
  else
    if _volume_mode self then (set_volume_mode self false, [])
    else (self, []).

(** The body of the [elif gesture == OK_SIGN] branch; [pointer] is what
    [pyautogui.position()] returns. *)
Definition ok_sign_branch (self : JarvisController) (held : bool)
           (palm : ndarray) (frame_w frame_h : Z) (pointer : Z * Z)
  : JarvisController * list Call :=
  if held then
    if negb (_selection_mode self) then
      (set_selection_start (set_selection_mode self true) (Some pointer),
       [mouseDown])
    else _move_cursor self palm frame_w frame_h
  else
    if _selection_mode self then (set_selection_mode self false, [mouseUp])
    else (self, []).

(** What one call of [_handle_gesture] receives: the recognizer's result,
    the hand, [frame.shape[:2]] and the two values read from outside
    ([time.time()] and the pointer position). *)
Record Tick := mkTick {
  gesture_state : GestureState;
  hand : HandLandmarks;
  frame_shape : Z * Z;              (* height, width *)
  current_time : Q;
  pointer : Z * Z
}.

(** The [if]/[elif] chain tests [gesture] against one enumeration value per
    branch, so it is a case analysis on [gesture]; a branch whose test also
    needs [is_held] does nothing when the gesture is not held, since no
    later branch tests the same value. *)
Definition _handle_gesture (self : JarvisController) (k : Tick)
  : JarvisController * list Call :=
  let gesture := gs_gesture (gesture_state k) in
  let held := is_held (gesture_state k) in
  let current_time := current_time k in
  if ltb current_time (_gesture_cooldown self) then (self, [])
  else
    let palm := palm_center (hand k) in
    let '(frame_h, frame_w) := frame_shape k in
    let '(self, calls) :=
      match gesture with
      | OPEN_PALM =>
        if held then _move_cursor self palm frame_w frame_h else (self, [])
      | POINT =>
        if held then
          (set_gesture_cooldown self (current_time + (1 # 2))%Q, [click])
        else (self, [])
      | PEACE =>
        if held then
          (set_gesture_cooldown self (current_time + (1 # 2))%Q, [rightClick])
        else (self, [])
      | FIST =>
        if held then
          let '(self, down) :=
            if negb (_dragging self) then (set_dragging self true, [mouseDown])
            else (self, []) in
          let '(self, move) := _move_cursor self palm frame_w frame_h in
          (self, down ++ move)
        else (self, [])
      | THUMBS_UP =>
        if held then
          (set_gesture_cooldown self (current_time + (2 # 10))%Q, [scroll 3])
        else (self, [])
      | THUMBS_DOWN =>
        if held then
          (set_gesture_cooldown self (current_time + (2 # 10))%Q,
           [scroll (-3)])
        else (self, [])
      | THREE_FINGERS =>
        if held then
          (set_gesture_cooldown self (current_time + (1 # 2))%Q,
           [middleClick])
        else (self, [])
      | PINCH => pinch_branch self held palm
      | ROCK =>
        if held then
          (set_gesture_cooldown self (current_time + 2)%Q,
           [_say "Voice command mode activated"])
        else (self, [])
      | OK_SIGN => ok_sign_branch self held palm frame_w frame_h (pointer k)
      | NONE | HOOK => (self, [])
      end in
    if negb (gesture_eqb gesture FIST) && _dragging self then
      (set_dragging self false, calls ++ [mouseUp])
    else (self, calls).

(** The gesture loop's calls of [_handle_gesture], one per tick; the result
    lists the calls each tick made. *)
Fixpoint run (self : JarvisController) (ticks : list Tick)
  : JarvisController * list (list Call) :=
  match ticks with
  | [] => (self, [])
  | k :: ticks' =>
    let '(self', calls) := _handle_gesture self k in
    let '(self'', rest) := run self' ticks' in
    (self'', calls :: rest)
  end.

(** *** [_run_gesture_loop] *)

Section WithNorm.
Context `{LinAlg}.

(** What one iteration of the gesture loop receives: whether
    [self._camera.read()] succeeded, the frame's shape, what MediaPipe
    found in the flipped frame, the two clock readings ([recognize] and
    [_handle_gesture] each call [time.time()]) and the pointer position. *)
Record Frame := mkFrame {
  ret : bool;
  shape : Z * Z;
  found : list RawHand;
  recognize_time : Q;
  handle_time : Q;
  pointer_at : Z * Z
}.

(** One iteration, without the drawing and the preview window: the
    recognizer and the controller afterwards and the calls made; [None]
    when [detect] raises.  [available] is the detector's flag. *)
Definition loop_iteration (available : bool)
           (state : GestureRecognizer * JarvisController) (f : Frame)
  : option (GestureRecognizer * JarvisController * list Call) :=
  let '(recognizer, self) := state in
  if negb (ret f) then Some (recognizer, self, [])
  else
    match detect available (shape f) (found f) with
    | None => None
    | Some [] => Some (recognizer, self, [])
    | Some (hand :: _) =>
      let '(recognizer, gesture_state) :=
        recognize recognizer hand (recognize_time f) in
      let '(self, calls) :=
        _handle_gesture self
          (mkTick gesture_state hand (shape f) (handle_time f)
                  (pointer_at f)) in
      Some (recognizer, self, calls)
    end.

End WithNorm.

End Main.


(** ** Sequences of calls *)

Module Traces.
Import Py Mappings Detector Recognizer Main.

(** The ticks' clock readings never go back, starting from [t]. *)
Fixpoint chronological (t : Q) (ticks : list Tick) : Prop :=
  match ticks with
  | [] => True
  | k :: ticks' =>
    (t <= current_time k)%Q /\ chronological (current_time k) ticks'
  end.

(** The clock reading of the last tick, [t] when there is none. *)
Fixpoint last_time (t : Q) (ticks : list Tick) : Q :=
  match ticks with
  | [] => t
  | k :: ticks' => last_time (current_time k) ticks'
  end.

(** A drag is never open while a cooldown is pending at time [t]. *)
Definition drag_inv (t : Q) (self : JarvisController) : Prop :=
  _dragging self = true -> (_gesture_cooldown self <= t)%Q.

(** A tick carrying a held [FIST] at or after the time [t]. *)
Definition held_fist_from (t : Q) (k : Tick) : Prop :=
  gs_gesture (gesture_state k) = FIST
  /\ is_held (gesture_state k) = true
  /\ (t <= current_time k)%Q.

Definition is_move (calls : list Call) : Prop :=
  exists x y, calls = [moveTo x y].

(** [n] calls of [_move_cursor] with the same palm position and frame;
    the result is the controller and the calls made, first call first. *)
Fixpoint move_n (self : JarvisController) (palm_pos : ndarray)
         (frame_w frame_h : Z) (n : nat) : JarvisController * list Call :=
  match n with
  | O => (self, [])
  | S n' =>
    let '(self', call) := _move_cursor self palm_pos frame_w frame_h in
    let '(self'', calls) := move_n self' palm_pos frame_w frame_h n' in
    (self'', call ++ calls)
  end.

(** The cursor position recorded after those [n] calls. *)
Definition position_after (self : JarvisController) (palm_pos : ndarray)
           (frame_w frame_h : Z) (n : nat) : Z * Z :=
  _last_cursor_pos (fst (move_n self palm_pos frame_w frame_h n)).

(** The larger of the two per-axis distances from [p] to [t], in pixels. *)
Definition gap (p t : Z * Z) : Z :=
  Z.max (Z.abs (fst t - fst p)) (Z.abs (snd t - snd p)).

(** [b] lies between [a] and [t], ends included. *)
Definition between (a b t : Z) : Prop := a <= b <= t \/ t <= b <= a.

(** The branches of [_handle_gesture] that set the cooldown: the call
    each makes and the length of the cooldown in seconds. *)
Definition discrete_action (g : GestureType) : option (Call * Q) :=
  match g with
  | POINT => Some (click, 1 # 2)
  | PEACE => Some (rightClick, 1 # 2)
  | THUMBS_UP => Some (scroll 3, 2 # 10)
  | THUMBS_DOWN => Some (scroll (-3), 2 # 10)
  | THREE_FINGERS => Some (middleClick, 1 # 2)
  | ROCK => Some (_say "Voice command mode activated", 2)
  | _ => None
  end%Q.

(** The number of mouse buttons the controller believes it holds down. *)
Definition buttons_held (self : JarvisController) : Z :=
  (if _dragging self then 1 else 0) + (if _selection_mode self then 1 else 0).

(** [mouseDown] calls minus [mouseUp] calls. *)
Definition button_delta (calls : list Call) : Z :=
  Z.of_nat (count_occ Call_eq_dec calls mouseDown)
  - Z.of_nat (count_occ Call_eq_dec calls mouseUp).

(** The position lies inside the screen margins. *)
Definition inside_margins (self : JarvisController) (p : Z * Z) : Prop :=
  Config.SCREEN_MARGIN <= fst p <= screen_width self - Config.SCREEN_MARGIN
  /\ Config.SCREEN_MARGIN <= snd p
     <= screen_height self - Config.SCREEN_MARGIN.

(** The recorded cursor position is either unset or inside the margins. *)
Definition cursor_ok (self : JarvisController) : Prop :=
  _last_cursor_pos self = (0, 0)
  \/ inside_margins self (_last_cursor_pos self).

(** Every [moveTo] among the calls targets a point inside the margins. *)
Definition moves_inside (self : JarvisController) (calls : list Call)
  : Prop :=
  forall x y, In (moveTo x y) calls -> inside_margins self (x, y).

End Traces.


(** ** Sample inputs used to evaluate the model *)

Module Samples.
Import Py Mappings Detector Recognizer Main.

(** A norm to compute with: the Euclidean norm whenever the sum of squares
    is the square of a rational, a lower approximation of it otherwise. *)
Definition sumsq (v : ndarray) : Q :=
  fold_right (fun a acc => (a * a + acc)%Q) 0%Q v.

Definition qsqrt (q : Q) : Q :=
  (Z.sqrt (Qnum q * Zpos (Qden q)) # Qden q)%Q.

Definition euclid : LinAlg := {| norm := fun v => qsqrt (sumsq v) |}.

Definition pt (x y : Z) : ndarray := [inject_Z x; inject_Z y; 0%Q].

(** A hand whose 21 landmarks coincide at [(x, y, 0)]: its palm centre is
    that point and its reference span is zero. *)
Definition point_hand (x y : Z) : HandLandmarks :=
  mkHand (repeat (pt x y) 21) "Right" 1 (0, 0, 0, 0).

(** A right hand making the OK sign towards a camera: thumb tip 8 pixels
    from the index tip, reference span 50, every finger tip twice as far
    from the wrist as its middle joint. *)
Definition ok_hand : HandLandmarks :=
  mkHand
    [ pt 0 0;                                            (* wrist *)
      pt 80 10; pt 70 20; pt 65 60; pt 60 88;            (* thumb *)
      pt 20 45; pt 30 40; pt 45 60; pt 60 80;            (* index *)
      pt 0 50; pt 0 55; pt 0 80; pt 0 110;               (* middle *)
      pt (-20) 45; pt (-30) 40; pt (-45) 60; pt (-60) 80; (* ring *)
      pt (-30) 25; pt (-40) 30; pt (-60) 45; pt (-80) 60 (* pinky *) ]
    "Right" 1 (-80, 0, 160, 110).

(** One call of [_handle_gesture] on a 640x480 frame with the palm at the
    pixel [(x, y)]. *)
Definition tick (g : GestureType) (held : bool) (x y : Z) (now : Q) : Tick :=
  mkTick (mkGestureState g 1 0 (0, 0)%Q held) (point_hand x y) (480, 640)
         now (0, 0).

Definition start : JarvisController := new_controller (1920, 1080).

(** The hand [ok_hand] as MediaPipe would report it on a 640x480 frame:
    coordinates relative to the frame's width and height. *)
Definition ok_raw : RawHand :=
  mkRawHand
    (map (fun row => (idx row 0 / 640, idx row 1 / 480, idx row 2 / 640)%Q)
         (landmarks ok_hand))
    "Right" 1.

End Samples.


(** * Properties *)

Import Py Mappings Detector Recognizer Main Traces.

(** ** Comparisons and membership *)

Lemma ltb_lt (a b : Q) : ltb a b = true <-> (a < b)%Q.
Proof.
  unfold ltb. rewrite negb_true_iff. split; intros E.
  - apply Qnot_le_lt. intros L. apply Qle_bool_iff in L. congruence.
  - destruct (Qle_bool b a) eqn:L; [|reflexivity].
    apply Qle_bool_iff in L. exfalso. exact (Qlt_not_le _ _ E L).
Qed.

Lemma ltb_ge (a b : Q) : ltb a b = false <-> (b <= a)%Q.
Proof.
  unfold ltb. rewrite negb_false_iff. apply Qle_bool_iff.
Qed.

Lemma mem_In (x : string) (l : list string) : mem x l = true <-> In x l.
Proof.
  unfold mem. rewrite existsb_exists. split.
  - intros [y [I E]]. apply String.eqb_eq in E. now subst.
  - intros I. exists x. split; [assumption | apply String.eqb_refl].
Qed.

Lemma five_digits_length (extended : list string) :
  incl five_digits extended -> (5 <= List.length extended)%nat.
Proof.
  intros I. change 5%nat with (List.length five_digits).
  apply NoDup_incl_length; [|assumption].
  unfold five_digits; simpl.
  repeat (constructor; [simpl; intuition discriminate|]). constructor.
Qed.

(** ** The classifier *)

Ltac split_ifs :=
  repeat match goal with
         | |- context [if ?b then _ else _] =>
           lazymatch b with
           | true => fail
           | false => fail
           | _ => destruct b
           end
         end.

Lemma thumb_vertical_values extended hand g :
  thumb_vertical extended hand = Some g -> g = THUMBS_UP \/ g = THUMBS_DOWN.
Proof.
  unfold thumb_vertical. split_ifs; intros E; inversion E; auto.
Qed.

(** What [_classify_gesture] returns once the pinch test has failed. *)
Lemma classify_far extended d hand :
  ltb d PINCH_THRESHOLD = false ->
  let g := _classify_gesture extended d hand in
  g <> PINCH /\ g <> OK_SIGN /\ g <> HOOK.
Proof.
  intros E. unfold _classify_gesture. rewrite E.
  destruct (thumb_vertical extended hand) as [g|] eqn:T.
  - apply thumb_vertical_values in T.
    destruct (List.length extended =? 0)%nat;
      [|destruct T; subst g]; cbv zeta; repeat split; discriminate.
  - cbv zeta. split_ifs; repeat split; discriminate.
Qed.

(** What [_classify_gesture] returns once the pinch test has succeeded. *)
Lemma classify_near extended d hand :
  ltb d PINCH_THRESHOLD = true ->
  _classify_gesture extended d hand =
  if mem "middle" extended && mem "ring" extended && mem "pinky" extended
  then OK_SIGN else PINCH.
Proof.
  intros E. unfold _classify_gesture. now rewrite E.
Qed.

(** C4: when the thumb-index distance is below [PINCH_THRESHOLD], the
    classifier returns [OK_SIGN] if middle, ring and pinky are all in the
    extended list and [PINCH] otherwise, whatever else the list holds and
    whatever the hand's landmarks are. *)
Theorem pinch_family (extended : list string) (d : Q) (hand : HandLandmarks) :
  (d < PINCH_THRESHOLD)%Q ->
  (In "middle"%string extended /\ In "ring"%string extended
   /\ In "pinky"%string extended ->
   _classify_gesture extended d hand = OK_SIGN)
  /\ (~ (In "middle"%string extended /\ In "ring"%string extended
         /\ In "pinky"%string extended) ->
      _classify_gesture extended d hand = PINCH).
Proof.
  intros L. apply ltb_lt in L. rewrite (classify_near _ _ _ L).
  split.
  - intros (M & R & P). apply mem_In in M, R, P. now rewrite M, R, P.
  - intros N.
    destruct (mem "middle" extended) eqn:M; [|reflexivity].
    destruct (mem "ring" extended) eqn:R; [|reflexivity].
    destruct (mem "pinky" extended) eqn:P; [|reflexivity].
    exfalso. apply N. now rewrite <- !mem_In.
Qed.

Lemma pinch_family_witness :
  (1 # 10 < PINCH_THRESHOLD)%Q
  /\ _classify_gesture ["index"; "middle"; "ring"; "pinky"]%string (1 # 10)
                       Samples.ok_hand = OK_SIGN
  /\ _classify_gesture ["index"; "middle"; "pinky"]%string (1 # 10)
                       Samples.ok_hand = PINCH.
Proof.
  assert (L : (1 # 10 < PINCH_THRESHOLD)%Q) by reflexivity.
  split; [exact L|]. split.
  - apply (pinch_family _ _ Samples.ok_hand L). simpl. tauto.
  - apply (pinch_family _ _ Samples.ok_hand L). simpl.
    intros (_ & [E|[E|[E|[]]]] & _); discriminate.
Defined.

(** C5, as stated, fails: with all five digits extended and the thumb tip
    within the pinch distance of the index tip, the classifier answers
    [OK_SIGN], not [OPEN_PALM]. *)
Lemma five_digits_not_always_open_palm :
  incl five_digits five_digits
  /\ _classify_gesture five_digits (16 # 100) Samples.ok_hand <> OPEN_PALM.
Proof.
  split; [apply incl_refl | vm_compute; discriminate].
Qed.

(** The same on a whole frame: the hand [ok_hand] has all five digits
    extended by [get_extended_fingers], its normalized thumb-index distance
    is 8/50, and [recognize] reports [OK_SIGN]. *)
Example ok_hand_recognized :
  @get_extended_fingers Samples.euclid Samples.ok_hand = five_digits
  /\ gs_gesture (snd (@recognize Samples.euclid new_recognizer
                                 Samples.ok_hand 10)) = OK_SIGN.
Proof. split; vm_compute; reflexivity. Qed.

(** C5, amended: with all five digits in the extended list the classifier
    returns [OPEN_PALM] when the thumb-index distance is not below
    [PINCH_THRESHOLD] and [OK_SIGN] when it is; it never returns [NONE]. *)
Theorem five_digits_open_palm (extended : list string) (d : Q)
        (hand : HandLandmarks) :
  incl five_digits extended ->
  ((PINCH_THRESHOLD <= d)%Q -> _classify_gesture extended d hand = OPEN_PALM)
  /\ ((d < PINCH_THRESHOLD)%Q -> _classify_gesture extended d hand = OK_SIGN)
  /\ _classify_gesture extended d hand <> NONE.
Proof.
  intros I.
  assert (Far : ltb d PINCH_THRESHOLD = false ->
                _classify_gesture extended d hand = OPEN_PALM).
  { intros E. pose proof (five_digits_length _ I) as Len.
    unfold _classify_gesture, thumb_vertical. rewrite E.
    destruct (List.length extended) as [|[|[|[|n]]]]; try lia.
    simpl. now rewrite !andb_false_r. }
  assert (Near : ltb d PINCH_THRESHOLD = true ->
                 _classify_gesture extended d hand = OK_SIGN).
  { intros E. rewrite (classify_near _ _ _ E).
    assert (M : forall x, In x five_digits -> mem x extended = true).
    { intros x X. apply mem_In, I, X. }
    rewrite !M by (simpl; tauto). reflexivity. }
  split; [|split].
  - intros G. apply Far. now apply ltb_ge.
  - intros L. apply Near. now apply ltb_lt.
  - destruct (ltb d PINCH_THRESHOLD) eqn:E.
    + rewrite (Near eq_refl). discriminate.
    + rewrite (Far eq_refl). discriminate.
Qed.

Lemma five_digits_open_palm_witness :
  incl five_digits five_digits
  /\ _classify_gesture five_digits (1 # 2) Samples.ok_hand = OPEN_PALM.
Proof.
  split; [apply incl_refl|].
  apply (five_digits_open_palm five_digits (1 # 2) Samples.ok_hand
                               (incl_refl _)).
  discriminate.
Defined.

(** C10: the classifier never returns [HOOK], on any extended list,
    distance and hand, so neither does [recognize] on any frame; and the
    action table has no entry for [HOOK] or for [NONE]. *)
Theorem hook_unreachable :
  (forall extended d hand, _classify_gesture extended d hand <> HOOK)
  /\ (forall (L : LinAlg) self hand now,
         gs_gesture (snd (recognize self hand now)) <> HOOK)
  /\ get_gesture_action HOOK = None
  /\ get_gesture_action NONE = None.
Proof.
  assert (C : forall extended d hand, _classify_gesture extended d hand <> HOOK).
  { intros extended d hand.
    destruct (ltb d PINCH_THRESHOLD) eqn:E.
    - unfold _classify_gesture. rewrite E. split_ifs; discriminate.
    - now apply classify_far. }
  split; [exact C|]. split; [|split; reflexivity].
  intros L self hand now. unfold recognize.
  destruct (bbox hand) as [[[bx by_] bw] bh]. simpl. apply C.
Qed.

(** C8: when the wrist-to-middle-knuckle span is below 1,
    [_normalized_distance] returns the constant 1 whatever the two points
    are (the quotient is not formed), and [recognize] on such a frame never
    reports [PINCH] or [OK_SIGN]. *)
Theorem degenerate_span_is_far (L : LinAlg) (hand : HandLandmarks) :
  (norm (vsub (lm hand 9) (wrist hand)) < 1)%Q ->
  (forall point1 point2, _normalized_distance point1 point2 hand = 1%Q)
  /\ (forall self now,
         let g := gs_gesture (snd (recognize self hand now)) in
         g <> PINCH /\ g <> OK_SIGN).
Proof.
  intros S. apply ltb_lt in S.
  assert (D : forall p1 p2, _normalized_distance p1 p2 hand = 1%Q).
  { intros p1 p2. unfold _normalized_distance. now rewrite S. }
  split; [exact D|].
  intros self now. unfold recognize. rewrite D.
  destruct (bbox hand) as [[[bx by_] bw] bh]. simpl.
  pose proof (classify_far (get_extended_fingers hand) 1 hand eq_refl) as F.
  simpl in F. tauto.
Qed.

Lemma degenerate_span_is_far_witness :
  (@norm Samples.euclid
         (vsub (lm (Samples.point_hand 3 4) 9) (wrist (Samples.point_hand 3 4)))
   < 1)%Q
  /\ @_normalized_distance Samples.euclid [0; 0; 0]%Q [0; 0; 0]%Q
                           (Samples.point_hand 3 4) = 1%Q.
Proof.
  assert (S : (@norm Samples.euclid
                 (vsub (lm (Samples.point_hand 3 4) 9)
                       (wrist (Samples.point_hand 3 4))) < 1)%Q)
    by reflexivity.
  split; [exact S|].
  apply (degenerate_span_is_far Samples.euclid (Samples.point_hand 3 4) S).
Defined.

(** ** The dispatcher *)

Arguments screen_target : simpl never.
Arguments smooth_towards : simpl never.

Lemma move_cursor_eq self palm w h :
  _move_cursor self palm w h =
  let p := smooth_towards (_last_cursor_pos self)
                          (screen_target self palm w h) in
  (set_last_cursor_pos self p, [moveTo (fst p) (snd p)]).
Proof.
  unfold _move_cursor. now destruct (smooth_towards _ _).
Qed.

(** Splits a tick and a controller into their fields. *)
Ltac open_tick k :=
  destruct k as [[g conf st pos held] hd [frame_h frame_w] now ptr];
  cbn [gs_gesture is_held gesture_state frame_shape current_time hand
       pointer] in *.

Ltac open_controller self :=
  destruct self as [sw sh last cd dr vm vy cv sm ss];
  cbn [screen_width screen_height _last_cursor_pos _gesture_cooldown
       _dragging _volume_mode _volume_start_y _current_volume
       _selection_mode _selection_start] in *.

Ltac controller_cbn :=
  cbn [fst snd app negb andb gesture_eqb
       screen_width screen_height _last_cursor_pos _gesture_cooldown
       _dragging _volume_mode _volume_start_y _current_volume
       _selection_mode _selection_start
       set_last_cursor_pos set_gesture_cooldown set_dragging set_volume_mode
       set_volume_start_y set_current_volume set_selection_mode
       set_selection_start].

(** Unfolds one call of [_handle_gesture] on an opened tick and an opened
    controller; the cooldown test is rewritten with the hypothesis that
    decides it. *)
Ltac dispatch :=
  unfold _handle_gesture, pinch_branch, ok_sign_branch;
  cbn [gs_gesture is_held gesture_state frame_shape current_time hand
       pointer _gesture_cooldown];
  repeat match goal with
         | E : ltb _ _ = _ |- _ => rewrite E
         end;
  repeat (progress (controller_cbn; rewrite ?move_cursor_eq)).

(** Case analysis on the tests a branch of [_handle_gesture] still makes,
    simplifying before each test so that only open tests are split. *)
Ltac dispatch_cases :=
  repeat (controller_cbn;
          match goal with
          | |- context [if ?b then _ else _] =>
            lazymatch b with
            | true => fail
            | false => fail
            | _ => destruct b
            end
          end);
  controller_cbn.

(** The cooldown gate: a call made before [_gesture_cooldown] returns at
    once, for every gesture. *)
Lemma cooldown_gate self k :
  ltb (current_time k) (_gesture_cooldown self) = true ->
  _handle_gesture self k = (self, []).
Proof.
  intros E. unfold _handle_gesture. now rewrite E.
Qed.

(** C1, as stated, fails: a held [OPEN_PALM] dispatched 0.2 s after a click
    falls inside the click's 0.5 s cooldown and moves nothing. *)
Lemma held_open_palm_suppressed :
  snd (run Samples.start
           [ Samples.tick POINT true 320 240 10;
             Samples.tick OPEN_PALM true 400 240 (102 # 10) ])
  = [[click]; []].
Proof. vm_compute. reflexivity. Qed.

(** C1, amended: the cooldown gate comes first and suppresses every call
    made before the cooldown timestamp, continuous gestures included.  Once
    the current time is not before that timestamp, a held [OPEN_PALM] and a
    held [FIST] each emit a cursor move and a held [PINCH] leaves the
    controller in volume mode; none of the three changes the cooldown. *)
Theorem continuous_gestures_and_cooldown (self : JarvisController) (k : Tick) :
  ((current_time k < _gesture_cooldown self)%Q ->
   _handle_gesture self k = (self, []))
  /\ ((_gesture_cooldown self <= current_time k)%Q ->
      is_held (gesture_state k) = true ->
      (gs_gesture (gesture_state k) = OPEN_PALM
       \/ gs_gesture (gesture_state k) = FIST ->
       exists x y, In (moveTo x y) (snd (_handle_gesture self k)))
      /\ (gs_gesture (gesture_state k) = PINCH ->
          _volume_mode (fst (_handle_gesture self k)) = true)
      /\ (gs_gesture (gesture_state k) = OPEN_PALM
          \/ gs_gesture (gesture_state k) = FIST
          \/ gs_gesture (gesture_state k) = PINCH ->
          _gesture_cooldown (fst (_handle_gesture self k))
          = _gesture_cooldown self)).
Proof.
  split.
  - intros L. apply cooldown_gate. now apply ltb_lt.
  - intros G Held. apply ltb_ge in G.
    open_tick k. open_controller self. subst held.
    split; [|split].
    + intros [E|E]; subst g; destruct dr; dispatch; simpl; eauto.
    + intros E; subst g; destruct dr, vm; dispatch; dispatch_cases;
        reflexivity.
    + intros [E|[E|E]]; subst g; destruct dr, vm; dispatch; dispatch_cases;
        reflexivity.
Qed.
(** ** Drag release *)

Lemma run_cons self k ticks :
  run self (k :: ticks) =
  (fst (run (fst (_handle_gesture self k)) ticks),
   snd (_handle_gesture self k)
   :: snd (run (fst (_handle_gesture self k)) ticks)).
Proof.
  cbn [run]. destruct (_handle_gesture self k) as [s1 c1]. cbn [fst snd].
  now destruct (run s1 ticks).
Qed.

Lemma handle_gesture_drag_inv self k t :
  drag_inv t self -> (t <= current_time k)%Q ->
  drag_inv (current_time k) (fst (_handle_gesture self k)).
Proof.
  unfold drag_inv. intros I T.
  destruct (ltb (current_time k) (_gesture_cooldown self)) eqn:G.
  - rewrite (cooldown_gate _ _ G). cbn [fst]. intros D.
    apply Qle_trans with t; auto.
  - apply ltb_ge in G as G'. open_tick k. open_controller self.
    destruct g, held, dr, vm, sm; dispatch; dispatch_cases;
      intros D; try discriminate D; assumption.
Qed.

Lemma run_drag_inv ticks : forall self t,
  drag_inv t self -> chronological t ticks ->
  drag_inv (last_time t ticks) (fst (run self ticks)).
Proof.
  induction ticks as [|k ticks IH]; intros self t I C.
  - exact I.
  - destruct C as [T C]. rewrite run_cons. cbn [fst last_time].
    apply IH; [|exact C]. now apply handle_gesture_drag_inv with t.
Qed.

Lemma chronological_app t ticks k :
  chronological t (ticks ++ [k]) ->
  chronological t ticks /\ (last_time t ticks <= current_time k)%Q.
Proof.
  revert t. induction ticks as [|k' ticks IH]; intros t C.
  - simpl in *. tauto.
  - destruct C as [T C]. apply IH in C. simpl. tauto.
Qed.

(** A call whose gesture is not [FIST], made when no cooldown is pending
    over an open drag, closes the drag. *)
Lemma non_fist_releases self k :
  gs_gesture (gesture_state k) <> FIST ->
  drag_inv (current_time k) self ->
  _dragging (fst (_handle_gesture self k)) = false
  /\ (_dragging self = true -> In mouseUp (snd (_handle_gesture self k))).
Proof.
  unfold drag_inv. intros N I.
  destruct (ltb (current_time k) (_gesture_cooldown self)) eqn:G.
  - rewrite (cooldown_gate _ _ G). cbn [fst snd].
    destruct (_dragging self); [|split; [reflexivity | discriminate]].
    apply ltb_lt in G. specialize (I eq_refl).
    exfalso. exact (Qlt_not_le _ _ G I).
  - open_tick k. open_controller self. clear I.
    destruct g, held, dr, vm, sm; try (exfalso; apply N; reflexivity);
      dispatch; dispatch_cases;
        (split; [reflexivity | intros D; try discriminate D]);
        solve [cbn [In]; auto | apply in_or_app; right; cbn [In]; auto].
Qed.

(** C3: along any run from a fresh controller whose clock readings never
    go back, a call whose gesture is not [FIST] leaves [_dragging] false,
    and when [_dragging] was true on entry the call issues [mouseUp]. *)
Theorem drag_released_when_not_fist (size : Z * Z) (t0 : Q)
        (ticks : list Tick) (k : Tick) :
  chronological t0 (ticks ++ [k]) ->
  gs_gesture (gesture_state k) <> FIST ->
  let self := fst (run (new_controller size) ticks) in
  _dragging (fst (_handle_gesture self k)) = false
  /\ (_dragging self = true -> In mouseUp (snd (_handle_gesture self k))).
Proof.
  intros C N self. apply chronological_app in C as [C T].
  apply non_fist_releases; [exact N|].
  assert (I : drag_inv (last_time t0 ticks) self).
  { apply run_drag_inv; [|exact C]. intros D. discriminate D. }
  intros D. apply Qle_trans with (last_time t0 ticks); auto.
Qed.

Lemma drag_released_when_not_fist_witness :
  let ticks := [Samples.tick FIST true 320 240 10] in
  let k := Samples.tick OPEN_PALM true 320 240 11 in
  let self := fst (run (new_controller (1920, 1080)) ticks) in
  chronological 0 (ticks ++ [k])
  /\ _dragging self = true
  /\ _dragging (fst (_handle_gesture self k)) = false
  /\ In mouseUp (snd (_handle_gesture self k)).
Proof.
  intros ticks k self.
  assert (C : chronological 0 (ticks ++ [k])).
  { simpl. repeat split; discriminate. }
  assert (N : gs_gesture (gesture_state k) <> FIST) by discriminate.
  assert (D : _dragging self = true) by reflexivity.
  pose proof (drag_released_when_not_fist (1920, 1080) 0 ticks k C N)
    as [R U].
  split; [exact C | split; [exact D | split; [exact R | exact (U D)]]].
Defined.

(** ** Gestures without a handler *)

(** C7, as stated, fails: a [NONE] gesture dispatched while a drag is open
    issues [mouseUp] and clears [_dragging]. *)
Lemma none_closes_open_drag :
  let self := fst (run Samples.start [Samples.tick FIST true 320 240 10]) in
  _dragging self = true
  /\ _handle_gesture self (Samples.tick NONE false 320 240 11)
     = (set_dragging self false, [mouseUp]).
Proof. vm_compute. split; reflexivity. Qed.

(** C7, amended: a call whose gesture is [NONE] or [HOOK] never changes
    [_volume_mode] or [_selection_mode]; it makes no call and changes
    nothing when no drag is open (or a cooldown is pending), and when a
    drag is open and no cooldown is pending it issues exactly [mouseUp] and
    clears [_dragging]. *)
Theorem unhandled_gesture (self : JarvisController) (k : Tick) :
  gs_gesture (gesture_state k) = NONE \/ gs_gesture (gesture_state k) = HOOK ->
  _handle_gesture self k =
  (if negb (ltb (current_time k) (_gesture_cooldown self)) && _dragging self
   then (set_dragging self false, [mouseUp])
   else (self, []))
  /\ _volume_mode (fst (_handle_gesture self k)) = _volume_mode self
  /\ _selection_mode (fst (_handle_gesture self k)) = _selection_mode self
  /\ (_dragging self = false -> _handle_gesture self k = (self, [])).
Proof.
  intros E.
  destruct (ltb (current_time k) (_gesture_cooldown self)) eqn:G.
  - rewrite (cooldown_gate _ _ G). cbn [negb andb fst]. auto.
  - open_tick k. open_controller self.
    destruct E; subst g; destruct dr; dispatch;
      repeat split; try reflexivity; intros D; discriminate D.
Qed.

Lemma unhandled_gesture_witness :
  _handle_gesture Samples.start (Samples.tick NONE true 320 240 10)
  = (Samples.start, []).
Proof.
  apply (unhandled_gesture Samples.start (Samples.tick NONE true 320 240 10));
    [left|]; reflexivity.
Defined.

(** ** Held fist *)

(** C6, as stated, fails: a run of held [FIST] calls that begins inside a
    click's cooldown issues neither [mouseDown] nor [moveTo]. *)
Lemma held_fist_suppressed :
  snd (run Samples.start
           [ Samples.tick POINT true 320 240 10;
             Samples.tick FIST true 320 240 (102 # 10);
             Samples.tick FIST true 330 240 (103 # 10);
             Samples.tick OPEN_PALM true 330 240 (104 # 10) ])
  = [[click]; []; []; []].
Proof. vm_compute. reflexivity. Qed.

(** One held [FIST] call outside the cooldown: [mouseDown] exactly when no
    drag is open, then one [moveTo]; the drag is open afterwards and the
    cooldown is as before. *)
Lemma held_fist_call self k :
  held_fist_from (_gesture_cooldown self) k ->
  (if _dragging self then is_move (snd (_handle_gesture self k))
   else exists x y, snd (_handle_gesture self k) = [mouseDown; moveTo x y])
  /\ _dragging (fst (_handle_gesture self k)) = true
  /\ _gesture_cooldown (fst (_handle_gesture self k)) = _gesture_cooldown self.
Proof.
  intros (E & Held & T). apply ltb_ge in T.
  open_tick k. open_controller self. subst g held.
  destruct dr; dispatch; repeat split; unfold is_move; eauto.
Qed.

(** A run of held [FIST] calls over an open drag only moves the cursor. *)
Lemma held_fist_continues ticks : forall self,
  _dragging self = true ->
  Forall (held_fist_from (_gesture_cooldown self)) ticks ->
  Forall is_move (snd (run self ticks))
  /\ _dragging (fst (run self ticks)) = true.
Proof.
  induction ticks as [|k ticks IH]; intros self D F.
  - cbn. auto.
  - inversion F as [|? ? Fk Ft]; subst.
    destruct (held_fist_call self k Fk) as (S & D' & C).
    rewrite D in S. rewrite run_cons. cbn [fst snd].
    rewrite <- C in Ft. destruct (IH _ D' Ft) as [M D''].
    split; [constructor|]; assumption.
Qed.

Lemma moves_have_no_mouseDown calls :
  Forall is_move calls -> count_occ Call_eq_dec (List.concat calls) mouseDown = 0%nat.
Proof.
  induction 1 as [|c calls [x [y E]] _ IH]; [reflexivity|].
  subst c. cbn [List.concat app]. rewrite count_occ_cons_neq by discriminate.
  exact IH.
Qed.

(** C6, amended: a run of consecutive held [FIST] calls that starts with
    no drag open and with every call at or after the cooldown timestamp
    issues [mouseDown] exactly once, in its first call, and one [moveTo] in
    every call; the drag is open when the run ends. *)
Theorem held_fist_run (self : JarvisController) (k : Tick)
        (ticks : list Tick) :
  _dragging self = false ->
  Forall (held_fist_from (_gesture_cooldown self)) (k :: ticks) ->
  (exists x y rest,
      snd (run self (k :: ticks)) = [mouseDown; moveTo x y] :: rest
      /\ Forall is_move rest)
  /\ count_occ Call_eq_dec (List.concat (snd (run self (k :: ticks)))) mouseDown
     = 1%nat
  /\ _dragging (fst (run self (k :: ticks))) = true.
Proof.
  intros D F. inversion F as [|? ? Fk Ft]; subst.
  destruct (held_fist_call self k Fk) as (S & D' & C).
  rewrite D in S. destruct S as (x & y & S).
  rewrite <- C in Ft. destruct (held_fist_continues _ _ D' Ft) as [M D''].
  rewrite run_cons. cbn [fst snd]. rewrite S.
  split; [|split].
  - exists x, y, (snd (run (fst (_handle_gesture self k)) ticks)). auto.
  - cbn [List.concat app]. rewrite count_occ_cons_eq by reflexivity.
    rewrite count_occ_cons_neq by discriminate.
    now rewrite moves_have_no_mouseDown.
  - exact D''.
Qed.

Lemma held_fist_run_witness :
  snd (run Samples.start
           [ Samples.tick FIST true 320 240 10;
             Samples.tick FIST true 320 240 11;
             Samples.tick FIST true 320 240 12 ])
  = [[mouseDown; moveTo 960 540]; [moveTo 960 540]; [moveTo 960 540]]
  /\ count_occ Call_eq_dec
       (List.concat (snd (run Samples.start
                         [ Samples.tick FIST true 320 240 10;
                           Samples.tick FIST true 320 240 11;
                           Samples.tick FIST true 320 240 12 ])))
       mouseDown = 1%nat.
Proof.
  split; [vm_compute; reflexivity|].
  apply (held_fist_run Samples.start (Samples.tick FIST true 320 240 10)
           [ Samples.tick FIST true 320 240 11;
             Samples.tick FIST true 320 240 12 ]).
  - reflexivity.
  - repeat constructor; discriminate.
Defined.

(** ** Mode flags *)

(** C2 at a concrete run: a pinch held into volume mode, then an OK sign
    held into selection mode, then a held fist.  [_volume_mode] is cleared
    only by a later [PINCH] that is not held and [_selection_mode] only by
    a later [OK_SIGN] that is not held, so after the second held gesture
    two flags are set and after the third all three are. *)
Theorem mode_flags_overlap :
  let pinch_then_ok :=
    [ Samples.tick PINCH false 320 240 10;
      Samples.tick PINCH true 320 240 (101 # 10);
      Samples.tick OK_SIGN false 320 240 (102 # 10);
      Samples.tick OK_SIGN true 320 240 (103 # 10) ] in
  let then_fist :=
    pinch_then_ok
    ++ [ Samples.tick FIST false 320 240 (104 # 10);
         Samples.tick FIST true 320 240 (105 # 10) ] in
  (_volume_mode (fst (run Samples.start pinch_then_ok)) = true
   /\ _selection_mode (fst (run Samples.start pinch_then_ok)) = true)
  /\ (_dragging (fst (run Samples.start then_fist)) = true
      /\ _volume_mode (fst (run Samples.start then_fist)) = true
      /\ _selection_mode (fst (run Samples.start then_fist)) = true)
  /\ snd (run Samples.start then_fist)
     = [[]; []; []; [mouseDown]; []; [mouseDown; moveTo 960 540]].
Proof. vm_compute. repeat split; reflexivity. Qed.

(** Each call sets at most the flag of its own gesture: [_dragging] only on
    [FIST], [_volume_mode] only on [PINCH], [_selection_mode] only on
    [OK_SIGN]. *)
Lemma flag_set_by_own_gesture self k :
  let self' := fst (_handle_gesture self k) in
  let g := gs_gesture (gesture_state k) in
  (_dragging self = false -> _dragging self' = true -> g = FIST)
  /\ (_volume_mode self = false -> _volume_mode self' = true -> g = PINCH)
  /\ (_selection_mode self = false -> _selection_mode self' = true ->
      g = OK_SIGN).
Proof.
  cbv zeta.
  destruct (ltb (current_time k) (_gesture_cooldown self)) eqn:G.
  - rewrite (cooldown_gate _ _ G). cbn [fst].
    repeat split; intros A B; congruence.
  - open_tick k. open_controller self.
    destruct g, held, dr, vm, sm; dispatch; dispatch_cases;
      repeat split; intros A B; try reflexivity; discriminate.
Qed.

(** ** Cursor smoothing *)

Lemma smooth_quot last screen :
  smooth last screen = Z.quot (3 * last + 7 * screen) 10.
Proof.
  unfold smooth, py_int, smoothing.
  cbn [Qnum Qden Qplus Qminus Qmult Qopp inject_Z Pos.mul].
  f_equal. ring.
Qed.

(** One smoothing step on one axis: the new position lies between the old
    one and the target, and the gap shrinks by at least one pixel until it
    is at most one pixel. *)
Lemma smooth_step last screen :
  between last (smooth last screen) screen
  /\ Z.abs (screen - smooth last screen)
     <= Z.max 1 (Z.abs (screen - last) - 1).
Proof.
  rewrite smooth_quot. unfold between.
  Z.to_euclidean_division_equations. lia.
Qed.

Lemma smooth_towards_step last screen :
  let p := smooth_towards last screen in
  between (fst last) (fst p) (fst screen)
  /\ between (snd last) (snd p) (snd screen)
  /\ gap p screen <= Z.max 1 (gap last screen - 1).
Proof.
  destruct last as [lx ly], screen as [sx sy].
  unfold smooth_towards, gap. cbn [fst snd].
  destruct ((lx =? 0) && (ly =? 0)); cbn [fst snd].
  - pose proof (smooth_step sx sx) as [Bx _].
    pose proof (smooth_step sy sy) as [By' _].
    unfold between in *. lia.
  - pose proof (smooth_step lx sx) as [Bx X].
    pose proof (smooth_step ly sy) as [By' Y].
    unfold between in *. lia.
Qed.

Lemma screen_target_last_cursor_pos self p palm w h :
  screen_target (set_last_cursor_pos self p) palm w h
  = screen_target self palm w h.
Proof. reflexivity. Qed.

Lemma move_n_S self palm w h n :
  move_n self palm w h (S n) =
  let p := smooth_towards (_last_cursor_pos self)
                          (screen_target self palm w h) in
  let r := move_n (set_last_cursor_pos self p) palm w h n in
  (fst r, moveTo (fst p) (snd p) :: snd r).
Proof.
  change (move_n self palm w h (S n)) with
    (let '(self', call) := _move_cursor self palm w h in
     let '(self'', calls) := move_n self' palm w h n in
     (self'', call ++ calls)).
  rewrite move_cursor_eq. cbv beta zeta iota.
  now destruct (move_n _ palm w h n).
Qed.

(** The recorded position follows the smoothing recurrence. *)
Lemma position_after_iter palm w h n : forall self,
  position_after self palm w h n =
  Nat.iter n (fun p => smooth_towards p (screen_target self palm w h))
           (_last_cursor_pos self).
Proof.
  unfold position_after.
  induction n as [|n IH]; intros self; [reflexivity|].
  rewrite move_n_S, Nat.iter_succ_r. cbv zeta. cbn [fst].
  rewrite IH, screen_target_last_cursor_pos. reflexivity.
Qed.

Lemma position_after_S self palm w h n :
  position_after self palm w h (S n) =
  smooth_towards (position_after self palm w h n)
                 (screen_target self palm w h).
Proof. now rewrite !position_after_iter. Qed.

(** Each call passes to [moveTo] the position it records. *)
Lemma move_n_calls palm w h n : forall self,
  snd (move_n self palm w h n) =
  map (fun i => moveTo (fst (position_after self palm w h i))
                       (snd (position_after self palm w h i)))
      (seq 1 n).
Proof.
  induction n as [|n IH]; intros self; [reflexivity|].
  rewrite move_n_S. cbv zeta. cbn [snd seq map].
  rewrite <- (seq_shift n 1), map_map, IH.
  f_equal.
  - now rewrite position_after_S.
  - apply map_ext. intros i.
    unfold position_after. now rewrite (move_n_S self).
Qed.

Lemma gap_after self palm w h n :
  gap (position_after self palm w h n) (screen_target self palm w h)
  <= Z.max 1 (gap (_last_cursor_pos self) (screen_target self palm w h)
              - Z.of_nat n).
Proof.
  induction n as [|n IH].
  - unfold position_after. cbn [move_n fst]. lia.
  - rewrite position_after_S.
    pose proof (smooth_towards_step (position_after self palm w h n)
                  (screen_target self palm w h)) as (_ & _ & G).
    cbv zeta in G. lia.
Qed.

(** C9: feeding [_move_cursor] the same palm position and frame again and
    again, every call moves the recorded (and emitted) position, on each
    axis, to a point between the previous position and the raw target, so
    it never passes the target; and after as many calls as the initial gap
    has pixels the position stays within one pixel of the target on both
    axes.  No assumption is made on the previous position. *)
Theorem smoothing_converges (self : JarvisController) (palm_pos : ndarray)
        (frame_w frame_h : Z) :
  let target := screen_target self palm_pos frame_w frame_h in
  let p := position_after self palm_pos frame_w frame_h in
  (forall n,
      snd (move_n self palm_pos frame_w frame_h n)
      = map (fun i => moveTo (fst (p i)) (snd (p i))) (seq 1 n))
  /\ (forall n,
         between (fst (p n)) (fst (p (S n))) (fst target)
         /\ between (snd (p n)) (snd (p (S n))) (snd target))
  /\ (forall n,
         (Z.to_nat (gap (_last_cursor_pos self) target) <= n)%nat ->
         Z.abs (fst target - fst (p n)) <= 1
         /\ Z.abs (snd target - snd (p n)) <= 1).
Proof.
  intros target p. split; [|split].
  - intros n. apply move_n_calls.
  - intros n. unfold p. rewrite position_after_S.
    pose proof (smooth_towards_step
                  (position_after self palm_pos frame_w frame_h n) target)
      as (X & Y & _).
    auto.
  - intros n N. pose proof (gap_after self palm_pos frame_w frame_h n) as G.
    fold target in G. fold (p n) in G. unfold gap in *. lia.
Qed.

(** From below the recurrence stops one pixel short of the target, from
    above it reaches it: with the target at (960, 540), a cursor recorded
    at (950, 548) is at (959, 540) after four calls and stays there. *)
Example smoothing_one_pixel_short :
  let self := set_last_cursor_pos Samples.start (950, 548) in
  let palm := palm_center (Samples.point_hand 320 240) in
  screen_target self palm 640 480 = (960, 540)
  /\ map (position_after self palm 640 480) [1; 2; 3; 4; 5; 6]%nat
     = [(957, 542); (959, 540); (959, 540); (959, 540); (959, 540);
        (959, 540)].
Proof. vm_compute. split; reflexivity. Qed.

(** * Further properties *)

From Stdlib Require Import Permutation Lqa.

(** ** The classifier on whole families of inputs *)

Lemma mem_Permutation x l l' :
  Permutation l l' -> mem x l = mem x l'.
Proof.
  intros P. apply eq_true_iff_eq. rewrite !mem_In.
  split; apply Permutation_in; [assumption | now apply Permutation_sym].
Qed.

(** X1: the classifier looks at the extended list only through its length
    and through membership tests, so the order in which the digits are
    listed does not matter. *)
Theorem classify_order_irrelevant (l l' : list string) (d : Q)
        (hand : HandLandmarks) :
  Permutation l l' ->
  _classify_gesture l d hand = _classify_gesture l' d hand.
Proof.
  intros P. unfold _classify_gesture, thumb_vertical.
  rewrite (Permutation_length P).
  now rewrite !(mem_Permutation _ _ _ P).
Qed.

Lemma classify_order_irrelevant_witness :
  _classify_gesture ["middle"; "index"]%string (1 # 2) Samples.ok_hand
  = _classify_gesture ["index"; "middle"]%string (1 # 2) Samples.ok_hand.
Proof.
  apply (classify_order_irrelevant ["middle"; "index"]%string
           ["index"; "middle"]%string (1 # 2) Samples.ok_hand).
  apply perm_swap.
Defined.

(** X2: [FIST] is returned exactly when no digit is extended and the
    thumb-index distance is not below the pinch threshold; and [NONE] is
    returned only for one or two extended digits at such a distance. *)
Theorem fist_and_none (extended : list string) (d : Q)
        (hand : HandLandmarks) :
  (_classify_gesture extended d hand = FIST
   <-> extended = [] /\ (PINCH_THRESHOLD <= d)%Q)
  /\ (_classify_gesture extended d hand = NONE ->
      (PINCH_THRESHOLD <= d)%Q
      /\ (List.length extended = 1 \/ List.length extended = 2)%nat).
Proof.
  destruct (ltb d PINCH_THRESHOLD) eqn:E.
  - rewrite (classify_near _ _ _ E). apply ltb_lt in E.
    split; [split|].
    + split_ifs; discriminate.
    + intros [_ G]. exfalso. exact (Qlt_not_le _ _ E G).
    + split_ifs; discriminate.
  - apply ltb_ge in E as G. unfold _classify_gesture, thumb_vertical.
    rewrite E.
    destruct extended as [|a [|b [|c extended]]]; cbn [List.length Nat.eqb Nat.leb].
    + split; [split; auto|discriminate].
    + split; [split; [|intros [X _]; discriminate X]|auto].
      split_ifs; discriminate.
    + split; [split; [|intros [X _]; discriminate X]|auto].
      cbn [andb]. split_ifs; discriminate.
    + split; [split; [|intros [X _]; discriminate X]|].
      * cbn [andb]. split_ifs; discriminate.
      * cbn [andb]. rewrite !andb_false_r. cbn [orb andb].
        split_ifs; discriminate.
Qed.

(** X3: with three or more digits extended and no pinch, the answer is
    [THREE_FINGERS] when the digits are exactly three and include index,
    middle and ring, and [OPEN_PALM] in every other case. *)
Theorem three_or_more (extended : list string) (d : Q)
        (hand : HandLandmarks) :
  (PINCH_THRESHOLD <= d)%Q ->
  (3 <= List.length extended)%nat ->
  _classify_gesture extended d hand =
  if (List.length extended =? 3)%nat && mem "index" extended
     && mem "middle" extended && mem "ring" extended
  then THREE_FINGERS else OPEN_PALM.
Proof.
  intros G Len. apply ltb_ge in G.
  unfold _classify_gesture, thumb_vertical. rewrite G.
  destruct (List.length extended) as [|[|[|n]]]; try lia.
  cbn [Nat.eqb Nat.leb andb orb]. rewrite !andb_false_r.
  reflexivity.
Qed.

Lemma three_or_more_witness :
  _classify_gesture ["thumb"; "index"; "middle"; "ring"]%string (1 # 2)
                    Samples.ok_hand = OPEN_PALM
  /\ _classify_gesture ["index"; "middle"; "ring"]%string (1 # 2)
                       Samples.ok_hand = THREE_FINGERS.
Proof.
  split.
  - apply (three_or_more ["thumb"; "index"; "middle"; "ring"]%string (1 # 2)
             Samples.ok_hand); [discriminate | simpl; lia].
  - apply (three_or_more ["index"; "middle"; "ring"]%string (1 # 2)
             Samples.ok_hand); [discriminate | simpl; lia].
Defined.

(** X4: with the thumb as the only extended digit and no pinch, the answer
    depends on the thumb tip's height against the wrist's with a margin of
    15 pixels: [THUMBS_UP] above, [THUMBS_DOWN] below, [NONE] within. *)
Theorem thumb_only (d : Q) (hand : HandLandmarks) :
  (PINCH_THRESHOLD <= d)%Q ->
  let thumb_y := idx (thumb_tip hand) 1 in
  let wrist_y := idx (wrist hand) 1 in
  ((thumb_y < wrist_y - 15)%Q ->
   _classify_gesture ["thumb"%string] d hand = THUMBS_UP)
  /\ ((wrist_y + 15 < thumb_y)%Q ->
      _classify_gesture ["thumb"%string] d hand = THUMBS_DOWN)
  /\ ((wrist_y - 15 <= thumb_y <= wrist_y + 15)%Q ->
      _classify_gesture ["thumb"%string] d hand = NONE).
Proof.
  intros G thumb_y wrist_y. apply ltb_ge in G.
  unfold _classify_gesture, thumb_vertical. rewrite G.
  cbn [List.length Nat.eqb Nat.leb andb orb mem existsb String.eqb
       Ascii.eqb Bool.eqb].
  fold thumb_y wrist_y.
  split; [|split].
  - intros U. apply ltb_lt in U. now rewrite U.
  - intros D.
    assert (N : ltb thumb_y (wrist_y - 15) = false).
    { apply ltb_ge. apply Qlt_le_weak.
      apply Qlt_trans with (wrist_y + 15)%Q; [|exact D].
      apply Qplus_lt_r. reflexivity. }
    apply ltb_lt in D. now rewrite N, D.
  - intros [Lo Hi]. apply ltb_ge in Lo, Hi. now rewrite Lo, Hi.
Qed.

Lemma thumb_only_witness :
  _classify_gesture ["thumb"%string] (1 # 2) Samples.ok_hand = THUMBS_DOWN.
Proof.
  apply (thumb_only (1 # 2) Samples.ok_hand); [discriminate | reflexivity].
Defined.

(** X5: pointing tolerates the thumb.  With no pinch, an extended list
    that holds the index and has one element, or holds index and thumb and
    has two, is classified [POINT]. *)
Theorem point_tolerates_thumb (extended : list string) (d : Q)
        (hand : HandLandmarks) :
  (PINCH_THRESHOLD <= d)%Q ->
  In "index"%string extended ->
  List.length extended = 1%nat
  \/ (List.length extended = 2%nat /\ In "thumb"%string extended) ->
  _classify_gesture extended d hand = POINT.
Proof.
  intros G I C. apply ltb_ge in G.
  unfold _classify_gesture, thumb_vertical. rewrite G.
  destruct C as [L|[L T]].
  - destruct extended as [|a [|b extended]]; try discriminate L.
    destruct I as [I|[]]. subst a. reflexivity.
  - apply mem_In in I, T. rewrite L, I, T. reflexivity.
Qed.

Lemma point_tolerates_thumb_witness :
  _classify_gesture ["thumb"; "index"]%string (1 # 2) Samples.ok_hand = POINT.
Proof.
  apply (point_tolerates_thumb ["thumb"; "index"]%string (1 # 2)
           Samples.ok_hand); [discriminate | simpl; tauto | right].
  split; [reflexivity | simpl; tauto].
Defined.

Lemma two_distinct (a b : string) (extended : list string) :
  List.length extended = 2%nat -> a <> b ->
  In a extended -> In b extended ->
  forall c, c <> a -> c <> b -> mem c extended = false.
Proof.
  intros L N A B c Ca Cb.
  destruct extended as [|x [|y [|z extended]]]; try discriminate L.
  destruct (mem c [x; y]) eqn:M; [|reflexivity].
  apply mem_In in M. simpl in A, B, M. exfalso.
  intuition congruence.
Qed.

(** X6: the two-finger signs.  With no pinch and exactly two extended
    digits, index with middle is [PEACE] and index with pinky is [ROCK]. *)
Theorem peace_and_rock (extended : list string) (d : Q)
        (hand : HandLandmarks) :
  (PINCH_THRESHOLD <= d)%Q ->
  List.length extended = 2%nat ->
  In "index"%string extended ->
  (In "middle"%string extended ->
   _classify_gesture extended d hand = PEACE)
  /\ (In "pinky"%string extended ->
      _classify_gesture extended d hand = ROCK).
Proof.
  intros G L I. apply ltb_ge in G.
  unfold _classify_gesture, thumb_vertical. rewrite G, L.
  cbn [Nat.eqb Nat.leb andb orb].
  apply mem_In in I as Im. rewrite Im. cbn [andb].
  split; intros F.
  - assert (T : mem "thumb" extended = false).
    { apply (two_distinct "index" "middle" extended L);
        (assumption || discriminate). }
    apply mem_In in F. now rewrite T, F.
  - assert (T : mem "thumb" extended = false).
    { apply (two_distinct "index" "pinky" extended L);
        (assumption || discriminate). }
    assert (M : mem "middle" extended = false).
    { apply (two_distinct "index" "pinky" extended L);
        (assumption || discriminate). }
    apply mem_In in F. now rewrite T, M, F.
Qed.

Lemma peace_and_rock_witness :
  _classify_gesture ["index"; "middle"]%string (1 # 2) Samples.ok_hand = PEACE
  /\ _classify_gesture ["index"; "pinky"]%string (1 # 2) Samples.ok_hand
     = ROCK.
Proof.
  split.
  - apply (peace_and_rock ["index"; "middle"]%string (1 # 2) Samples.ok_hand);
      [discriminate | reflexivity | simpl; tauto | simpl; tauto].
  - apply (peace_and_rock ["index"; "pinky"]%string (1 # 2) Samples.ok_hand);
      [discriminate | reflexivity | simpl; tauto | simpl; tauto].
Defined.

(** ** The extended digits *)

Lemma map_fst_filter_incl {A B} (p : A * B -> bool) (l : list (A * B)) :
  incl (map fst (filter p l)) (map fst l).
Proof.
  intros x X. apply in_map_iff in X as (e & E & I).
  apply filter_In in I as [I _]. apply in_map_iff. now exists e.
Qed.

Lemma map_fst_filter_NoDup {A B} (p : A * B -> bool) (l : list (A * B)) :
  NoDup (map fst l) -> NoDup (map fst (filter p l)).
Proof.
  induction l as [|e l IH]; intros N; [constructor|].
  inversion N as [|? ? Out N']; subst. cbn [filter].
  destruct (p e); [|now apply IH].
  cbn [map]. constructor; [|now apply IH].
  intros I. apply Out. now apply (map_fst_filter_incl p l).
Qed.

(** X7: whatever the landmarks and the norm, [get_extended_fingers] lists
    digit names only, none of them twice, so at most five. *)
Theorem extended_fingers_distinct (L : LinAlg) (hand : HandLandmarks) :
  NoDup (get_extended_fingers hand)
  /\ incl (get_extended_fingers hand) five_digits
  /\ (List.length (get_extended_fingers hand) <= 5)%nat.
Proof.
  assert (N5 : NoDup five_digits).
  { unfold five_digits. cbn.
    repeat (constructor; [simpl; intuition discriminate|]). constructor. }
  assert (D : NoDup (get_extended_fingers hand)
              /\ incl (get_extended_fingers hand) five_digits).
  { unfold get_extended_fingers.
    set (rest := map fst (filter _ (tl fingers))).
    assert (Rn : NoDup rest).
    { apply map_fst_filter_NoDup. now inversion N5. }
    assert (Ri : incl rest (tl five_digits)).
    { apply (map_fst_filter_incl _ (tl fingers)). }
    assert (Rt : ~ In "thumb"%string rest).
    { intros I. apply Ri in I. inversion N5 as [|? ? Out _]. now apply Out. }
    assert (R5 : incl rest five_digits).
    { intros x X. right. now apply Ri. }
    match goal with
    | |- NoDup (?t ++ _) /\ _ =>
      assert (T : t = ["thumb"%string] \/ t = []) by (split_ifs; auto);
      destruct T as [-> | ->]
    end; cbn [app].
    - split; [now constructor|].
      intros x [<-|X]; [now left | now apply R5].
    - auto. }
  destruct D as [Dn Di]. repeat split; try assumption.
  change 5%nat with (List.length five_digits).
  now apply NoDup_incl_length.
Qed.

(** ** Hold tracking in [recognize] *)

Lemma gesture_eqb_eq (a b : GestureType) : gesture_eqb a b = true <-> a = b.
Proof.
  split; [|intros ->; destruct b; reflexivity].
  destruct a, b; (reflexivity || discriminate).
Qed.

Lemma no_time_is_not_held (t : Q) :
  geb (t - t) Config.GESTURE_HOLD_TIME = false.
Proof.
  unfold geb. destruct (Qle_bool _ _) eqn:E; [|reflexivity].
  apply Qle_bool_iff in E. unfold Config.GESTURE_HOLD_TIME in E.
  exfalso. lra.
Qed.

Lemma hold_time_passed (start now : Q) :
  geb (now - start) Config.GESTURE_HOLD_TIME = true
  <-> (start + Config.GESTURE_HOLD_TIME <= now)%Q.
Proof.
  unfold geb, Config.GESTURE_HOLD_TIME. rewrite Qle_bool_iff.
  split; intros E; lra.
Qed.

(** The recognizer and the state [recognize] returns, with the gesture it
    classified named [g]. *)
Lemma recognize_eq (L : LinAlg) self hand now :
  let g := _classify_gesture (get_extended_fingers hand)
             (_normalized_distance (thumb_tip hand) (index_tip hand) hand)
             hand in
  let self' :=
    match _last_gesture self with
    | Some g' =>
      if gesture_eqb g g' then self
      else mkRecognizer (Some g) now (_gesture_position self)
    | None => mkRecognizer (Some g) now (_gesture_position self)
    end in
  fst (recognize self hand now) = self'
  /\ gs_gesture (snd (recognize self hand now)) = g
  /\ start_time (snd (recognize self hand now)) = _gesture_start_time self'
  /\ is_held (snd (recognize self hand now))
     = geb (now - _gesture_start_time self') Config.GESTURE_HOLD_TIME
  /\ gs_confidence (snd (recognize self hand now)) = confidence hand.
Proof.
  unfold recognize. destruct (bbox hand) as [[[bx by_] bw] bh].
  cbn. repeat split.
Qed.

(** A gesture the recognizer did not see last restarts the hold clock. *)
Lemma recognize_new (L : LinAlg) self hand now :
  _last_gesture self <> Some (gs_gesture (snd (recognize self hand now))) ->
  is_held (snd (recognize self hand now)) = false
  /\ start_time (snd (recognize self hand now)) = now
  /\ _gesture_start_time (fst (recognize self hand now)) = now.
Proof.
  intros N.
  destruct (recognize_eq L self hand now) as (F & G & S & H & _).
  cbv zeta in *. rewrite G in N. rewrite F, S, H.
  destruct (_last_gesture self) as [g'|].
  - destruct (gesture_eqb _ g') eqn:E.
    + apply gesture_eqb_eq in E. congruence.
    + cbn. auto using no_time_is_not_held.
  - cbn. auto using no_time_is_not_held.
Qed.

(** X8: the first frame of a gesture is never held.  When the classified
    gesture differs from the one the recognizer last saw (or it has seen
    none, as after [reset]), [recognize] restarts the hold clock at the
    current time and reports [is_held = False]. *)
Theorem new_gesture_not_held (L : LinAlg) (self : GestureRecognizer)
        (hand : HandLandmarks) (now : Q) :
  (_last_gesture self <> Some (gs_gesture (snd (recognize self hand now))) ->
   is_held (snd (recognize self hand now)) = false
   /\ start_time (snd (recognize self hand now)) = now
   /\ _gesture_start_time (fst (recognize self hand now)) = now)
  /\ is_held (snd (recognize (reset self) hand now)) = false.
Proof.
  split; [apply recognize_new|].
  apply recognize_new. discriminate.
Qed.

Lemma recognize_remembers (L : LinAlg) self hand now :
  _last_gesture (fst (recognize self hand now))
  = Some (gs_gesture (snd (recognize self hand now))).
Proof.
  destruct (recognize_eq L self hand now) as (F & G & _).
  cbv zeta in F, G. rewrite F, G.
  destruct (_last_gesture self) as [g'|] eqn:E; [|reflexivity].
  destruct (gesture_eqb _ g') eqn:B; [|reflexivity].
  apply gesture_eqb_eq in B. now rewrite E, B.
Qed.

Lemma recognize_start_time (L : LinAlg) self hand now :
  start_time (snd (recognize self hand now))
  = _gesture_start_time (fst (recognize self hand now)).
Proof.
  destruct (recognize_eq L self hand now) as (F & _ & S & _).
  cbv zeta in F, S. now rewrite F, S.
Qed.

(** X9: a hand shown again is the same gesture with the same hold clock,
    and it is held exactly when [GESTURE_HOLD_TIME] (0.05 s) has passed
    since that clock started. *)
Theorem held_after_hold_time (L : LinAlg) (self : GestureRecognizer)
        (hand : HandLandmarks) (t0 t1 : Q) :
  let first := recognize self hand t0 in
  let second := recognize (fst first) hand t1 in
  gs_gesture (snd second) = gs_gesture (snd first)
  /\ start_time (snd second) = start_time (snd first)
  /\ (is_held (snd second) = true
      <-> (start_time (snd first) + Config.GESTURE_HOLD_TIME <= t1)%Q).
Proof.
  intros first second.
  pose proof (recognize_remembers L self hand t0) as Last.
  pose proof (recognize_start_time L self hand t0) as S0.
  destruct (recognize_eq L self hand t0) as (_ & G0 & _).
  destruct (recognize_eq L (fst first) hand t1) as (F1 & G1 & S1 & H1 & _).
  fold first in Last, S0, G0. fold second in F1, G1, S1, H1.
  cbv zeta in *.
  assert (R : forall g, gesture_eqb g g = true)
    by (intros g; now apply gesture_eqb_eq).
  rewrite Last, G0, R in S1, H1.
  rewrite G1, G0, S1, H1, S0.
  split; [reflexivity|]. split; [reflexivity|].
  apply hold_time_passed.
Qed.



(** ** The action table *)

(** X11: the action table has an entry for every gesture except [NONE] and
    [HOOK], and the entry found under a gesture is the one that names that
    gesture. *)
Theorem action_table_consistent (g : GestureType) :
  (get_gesture_action g = None <-> g = NONE \/ g = HOOK)
  /\ (forall a, get_gesture_action g = Some a -> gesture a = g).
Proof.
  split.
  - destruct g; cbn; split; intros E;
      try discriminate E; try (destruct E as [E|E]; discriminate E);
      auto.
  - intros a. destruct g; cbn; intros E; inversion E; reflexivity.
Qed.

(** X12: [get_all_gestures] describes exactly the gestures that have an
    action, each once and in the table's order, and reports for each the
    [continuous] flag of its action. *)
Theorem all_gestures_listed :
  map info_gesture get_all_gestures
  = map (fun e => gesture_name (fst e)) GESTURE_ACTIONS
  /\ NoDup (map info_gesture get_all_gestures)
  /\ (forall g, In (gesture_name g) (map info_gesture get_all_gestures)
                <-> get_gesture_action g <> None)
  /\ (forall g a, get_gesture_action g = Some a ->
                  In (mkGestureInfo (gesture_name g) (name a) (description a)
                                    (continuous a))
                     get_all_gestures).
Proof.
  split; [reflexivity|]. split; [|split].
  - cbn. repeat (constructor; [simpl; intuition discriminate|]). constructor.
  - intros g. destruct g; cbn; split; intros E;
      try discriminate; try tauto;
      try (exfalso; intuition discriminate);
      try (exfalso; apply E; reflexivity).
  - intros g a. destruct g; cbn; intros E; inversion E; subst; cbn; tauto.
Qed.

(** ** Discrete gestures and the cooldown *)

(** The cooldown after one call that is not gated, and the calls of a
    discrete gesture. *)
Lemma handle_discrete (self : JarvisController) (k : Tick) :
  (_gesture_cooldown self <= current_time k)%Q ->
  match (if is_held (gesture_state k)
         then discrete_action (gs_gesture (gesture_state k)) else None)
  with
  | Some (call, seconds) =>
    snd (_handle_gesture self k)
    = call :: (if _dragging self then [mouseUp] else [])
    /\ _gesture_cooldown (fst (_handle_gesture self k))
       = (current_time k + seconds)%Q
  | None =>
    _gesture_cooldown (fst (_handle_gesture self k)) = _gesture_cooldown self
  end.
Proof.
  intros G. apply ltb_ge in G. open_tick k. open_controller self.
  destruct g, held, dr, vm; cbn [discrete_action]; dispatch;
    dispatch_cases; auto.
Qed.

(** X13: which gestures fire once and start a cooldown.  In a call that
    is not gated, a held [POINT], [PEACE], [THUMBS_UP], [THUMBS_DOWN],
    [THREE_FINGERS] or [ROCK] makes its one call (followed by [mouseUp]
    when a drag was open) and sets the cooldown to the current time plus
    0.5 s, 0.5 s, 0.2 s, 0.2 s, 0.5 s and 2 s; every other gesture, and
    every gesture that is not held, leaves the cooldown as it was. *)
Theorem discrete_gestures_fire_once (self : JarvisController) (k : Tick) :
  (_gesture_cooldown self <= current_time k)%Q ->
  match (if is_held (gesture_state k)
         then discrete_action (gs_gesture (gesture_state k)) else None)
  with
  | Some (call, seconds) =>
    snd (_handle_gesture self k)
    = call :: (if _dragging self then [mouseUp] else [])
    /\ _gesture_cooldown (fst (_handle_gesture self k))
       = (current_time k + seconds)%Q
  | None =>
    _gesture_cooldown (fst (_handle_gesture self k)) = _gesture_cooldown self
  end.
Proof. exact (handle_discrete self k). Qed.

Lemma discrete_gestures_fire_once_witness :
  snd (_handle_gesture Samples.start (Samples.tick ROCK true 320 240 10))
  = [_say "Voice command mode activated"]
  /\ _gesture_cooldown
       (fst (_handle_gesture Samples.start
                             (Samples.tick ROCK true 320 240 10)))
     = (10 + 2)%Q.
Proof.
  apply (discrete_gestures_fire_once Samples.start
           (Samples.tick ROCK true 320 240 10)).
  discriminate.
Defined.

(** X14: a discrete gesture does not repeat inside its cooldown.  After a
    held discrete gesture has fired at time [t], every call made before
    [t] plus its cooldown length returns at once: no call is made and no
    attribute changes, whatever the gesture. *)
Theorem repeat_within_cooldown_suppressed (self : JarvisController)
        (k k' : Tick) (call : Call) (seconds : Q) :
  (_gesture_cooldown self <= current_time k)%Q ->
  is_held (gesture_state k) = true ->
  discrete_action (gs_gesture (gesture_state k)) = Some (call, seconds) ->
  (current_time k' < current_time k + seconds)%Q ->
  _handle_gesture (fst (_handle_gesture self k)) k'
  = (fst (_handle_gesture self k), []).
Proof.
  intros G H D T.
  pose proof (handle_discrete self k G) as F.
  rewrite H, D in F. destruct F as [_ C].
  apply cooldown_gate. rewrite C. now apply ltb_lt.
Qed.

Lemma repeat_within_cooldown_suppressed_witness :
  snd (_handle_gesture
         (fst (_handle_gesture Samples.start
                               (Samples.tick POINT true 320 240 10)))
         (Samples.tick POINT true 320 240 (104 # 10)))
  = [].
Proof.
  rewrite (repeat_within_cooldown_suppressed Samples.start
             (Samples.tick POINT true 320 240 10)
             (Samples.tick POINT true 320 240 (104 # 10))
             click (1 # 2));
    reflexivity || discriminate.
Defined.

Lemma cooldown_grows_in_call self k :
  (_gesture_cooldown self
   <= _gesture_cooldown (fst (_handle_gesture self k)))%Q.
Proof.
  destruct (ltb (current_time k) (_gesture_cooldown self)) eqn:G.
  - rewrite (cooldown_gate _ _ G). apply Qle_refl.
  - apply ltb_ge in G.
    pose proof (handle_discrete self k G) as F.
    destruct (is_held (gesture_state k));
      [destruct (discrete_action (gs_gesture (gesture_state k)))
         as [[c d]|] eqn:D|].
    + destruct F as [_ C]. rewrite C.
      assert (P : (0 < d)%Q).
      { destruct (gs_gesture (gesture_state k)); inversion D; reflexivity. }
      lra.
    + rewrite F. apply Qle_refl.
    + rewrite F. apply Qle_refl.
Qed.

(** X15: the cooldown timestamp never moves back, over any sequence of
    calls. *)
Theorem cooldown_never_decreases (ticks : list Tick)
        (self : JarvisController) :
  (_gesture_cooldown self <= _gesture_cooldown (fst (run self ticks)))%Q.
Proof.
  revert self. induction ticks as [|k ticks IH]; intros self.
  - apply Qle_refl.
  - rewrite run_cons. cbn [fst].
    eapply Qle_trans; [apply cooldown_grows_in_call | apply IH].
Qed.

(** X16: a gesture that is not held has no effect of its own.  Apart from
    [PINCH] and [OK_SIGN], which leave their modes when not held, a call
    with [is_held = False] makes no call and changes nothing, except that a
    gesture other than [FIST] closes an open drag. *)
Theorem not_held_has_no_effect (self : JarvisController) (k : Tick) :
  is_held (gesture_state k) = false ->
  gs_gesture (gesture_state k) <> PINCH ->
  gs_gesture (gesture_state k) <> OK_SIGN ->
  _handle_gesture self k =
  if negb (ltb (current_time k) (_gesture_cooldown self))
     && negb (gesture_eqb (gs_gesture (gesture_state k)) FIST)
     && _dragging self
  then (set_dragging self false, [mouseUp])
  else (self, []).
Proof.
  intros H P O.
  destruct (ltb (current_time k) (_gesture_cooldown self)) eqn:G.
  - now rewrite (cooldown_gate _ _ G).
  - open_tick k. open_controller self. subst held.
    destruct g, dr; try congruence; dispatch; reflexivity.
Qed.

Lemma not_held_has_no_effect_witness :
  let self := fst (run Samples.start [Samples.tick FIST true 320 240 10]) in
  _handle_gesture self (Samples.tick FIST false 320 240 11) = (self, []).
Proof.
  intros self.
  apply (not_held_has_no_effect self (Samples.tick FIST false 320 240 11));
    [reflexivity | discriminate | discriminate].
Defined.

(** ** Volume control *)

Lemma volume_in_range_call self k :
  0 <= _current_volume self <= 100 ->
  0 <= _current_volume (fst (_handle_gesture self k)) <= 100.
Proof.
  intros B.
  destruct (ltb (current_time k) (_gesture_cooldown self)) eqn:G.
  - now rewrite (cooldown_gate _ _ G).
  - open_tick k. open_controller self.
    destruct g, held, dr, vm; dispatch; dispatch_cases; lia.
Qed.

(** X17: the volume the controller keeps stays between 0 and 100 over any
    sequence of calls, if it starts there (a fresh controller starts at
    50). *)
Theorem volume_stays_in_range (ticks : list Tick) (self : JarvisController) :
  0 <= _current_volume self <= 100 ->
  0 <= _current_volume (fst (run self ticks)) <= 100.
Proof.
  revert self. induction ticks as [|k ticks IH]; intros self B.
  - exact B.
  - rewrite run_cons. cbn [fst]. apply IH. now apply volume_in_range_call.
Qed.

Lemma volume_stays_in_range_witness :
  0 <= _current_volume
         (fst (run Samples.start
                   [ Samples.tick PINCH true 320 400 10;
                     Samples.tick PINCH true 320 100 11;
                     Samples.tick PINCH true 320 (-900) 12 ]))
    <= 100.
Proof.
  apply (volume_stays_in_range
           [ Samples.tick PINCH true 320 400 10;
             Samples.tick PINCH true 320 100 11;
             Samples.tick PINCH true 320 (-900) 12 ] Samples.start).
  cbn. lia.
Defined.

(** X18: the key presses of a [PINCH] call.  The call presses
    [volumeup] when the kept volume rose and [volumedown] when it fell, as
    many times as the volume changed but at most five, and nothing else
    except the [mouseUp] that closes an open drag. *)
Theorem pinch_presses (self : JarvisController) (k : Tick) :
  gs_gesture (gesture_state k) = PINCH ->
  let v := _current_volume self in
  let v' := _current_volume (fst (_handle_gesture self k)) in
  snd (_handle_gesture self k)
  = times (Z.min 5 (Z.abs (v' - v)))
          (press (if v <? v' then "volumeup" else "volumedown"))
    ++ (if negb (ltb (current_time k) (_gesture_cooldown self))
           && _dragging self
        then [mouseUp] else []).
Proof.
  intros E.
  destruct (ltb (current_time k) (_gesture_cooldown self)) eqn:G.
  - rewrite (cooldown_gate _ _ G). cbn [fst snd negb andb].
    now rewrite Z.sub_diag.
  - open_tick k. open_controller self. subst g. cbv zeta.
    destruct held, dr, vm; dispatch;
      try (rewrite Z.sub_diag; reflexivity);
      set (new := Z.max 0 _);
      (destruct (new =? cv) eqn:Same; controller_cbn;
       [rewrite Z.sub_diag; reflexivity|]);
      apply Z.eqb_neq in Same;
      (destruct (cv <? new) eqn:Up; controller_cbn;
       [apply Z.ltb_lt in Up | apply Z.ltb_ge in Up]);
      rewrite ?app_nil_r; do 3 f_equal; lia.
Qed.

Lemma pinch_presses_witness :
  let self := fst (run Samples.start [Samples.tick PINCH true 320 400 10]) in
  snd (_handle_gesture self (Samples.tick PINCH true 320 100 11))
  = repeat (press "volumeup") 5
  /\ _current_volume (fst (_handle_gesture
                             self (Samples.tick PINCH true 320 100 11)))
     = 100.
Proof.
  intros self. split; [|reflexivity].
  rewrite (pinch_presses self (Samples.tick PINCH true 320 100 11) eq_refl).
  reflexivity.
Defined.

(** ** Mouse buttons *)

Lemma button_delta_app a b :
  button_delta (a ++ b) = button_delta a + button_delta b.
Proof. unfold button_delta. rewrite !count_occ_app. lia. Qed.

Lemma button_delta_presses n key :
  button_delta (times n (press key)) = 0.
Proof.
  unfold button_delta, times.
  now rewrite !count_occ_repeat_neq by discriminate.
Qed.

Lemma button_balance_call self k :
  button_delta (snd (_handle_gesture self k))
  = buttons_held (fst (_handle_gesture self k)) - buttons_held self.
Proof.
  destruct (ltb (current_time k) (_gesture_cooldown self)) eqn:G.
  - rewrite (cooldown_gate _ _ G). cbn. lia.
  - open_tick k. open_controller self. unfold buttons_held.
    destruct g, held, dr, vm, sm; dispatch; dispatch_cases;
      rewrite ?button_delta_app, ?button_delta_presses; reflexivity.
Qed.

(** X19: the controller's button bookkeeping matches its calls.  Over any
    sequence of calls, [mouseDown] calls minus [mouseUp] calls equal the
    change in the number of buttons the controller holds, counting one for
    an open drag and one for selection mode. *)
Theorem button_balance (ticks : list Tick) (self : JarvisController) :
  button_delta (List.concat (snd (run self ticks)))
  = buttons_held (fst (run self ticks)) - buttons_held self.
Proof.
  revert self. induction ticks as [|k ticks IH]; intros self.
  - cbn. lia.
  - rewrite run_cons. cbn [fst snd List.concat].
    rewrite button_delta_app, IH, button_balance_call. lia.
Qed.

(** ** Cursor mapping *)

Lemma smooth_same (p : Z) : smooth p p = p.
Proof.
  rewrite smooth_quot. replace (3 * p + 7 * p) with (p * 10) by ring.
  now apply Z.quot_mul.
Qed.

(** X20: the first movement is not smoothed.  While no position has been
    recorded ([_last_cursor_pos] is [(0, 0)]), [_move_cursor] moves the
    pointer straight to the mapped, clamped position and records it. *)
Theorem first_move_jumps (self : JarvisController) (palm_pos : ndarray)
        (frame_w frame_h : Z) :
  _last_cursor_pos self = (0, 0) ->
  let target := screen_target self palm_pos frame_w frame_h in
  _move_cursor self palm_pos frame_w frame_h
  = (set_last_cursor_pos self target, [moveTo (fst target) (snd target)]).
Proof.
  intros E target. rewrite move_cursor_eq. cbv zeta. fold target.
  rewrite E. destruct target as [x y].
  unfold smooth_towards. cbn [Z.eqb andb fst snd].
  now rewrite !smooth_same.
Qed.

Lemma first_move_jumps_witness :
  _move_cursor Samples.start (palm_center (Samples.point_hand 400 120))
               640 480
  = (set_last_cursor_pos Samples.start (1360, 90), [moveTo 1360 90]).
Proof.
  rewrite (first_move_jumps Samples.start
             (palm_center (Samples.point_hand 400 120)) 640 480 eq_refl).
  reflexivity.
Defined.

Lemma screen_target_inside self palm w h :
  2 * Config.SCREEN_MARGIN <= screen_width self ->
  2 * Config.SCREEN_MARGIN <= screen_height self ->
  inside_margins self (screen_target self palm w h).
Proof.
  unfold inside_margins, screen_target, Config.SCREEN_MARGIN.
  cbn [fst snd]. lia.
Qed.

Lemma smooth_towards_inside self last target :
  last = (0, 0) \/ inside_margins self last ->
  inside_margins self target ->
  inside_margins self (smooth_towards last target).
Proof.
  intros C T.
  pose proof (smooth_towards_step last target) as (X & Y & _).
  cbv zeta in X, Y. destruct C as [E|I].
  - subst last. destruct target as [x y].
    unfold smooth_towards. cbn [Z.eqb andb]. now rewrite !smooth_same.
  - unfold inside_margins, between in *. lia.
Qed.

Lemma cursor_inside_call self k :
  2 * Config.SCREEN_MARGIN <= screen_width self ->
  2 * Config.SCREEN_MARGIN <= screen_height self ->
  cursor_ok self ->
  let r := _handle_gesture self k in
  screen_width (fst r) = screen_width self
  /\ screen_height (fst r) = screen_height self
  /\ cursor_ok (fst r)
  /\ moves_inside self (snd r).
Proof.
  intros W H C. cbv zeta.
  destruct (ltb (current_time k) (_gesture_cooldown self)) eqn:G.
  - rewrite (cooldown_gate _ _ G). cbn [fst snd].
    split; [reflexivity|]. split; [reflexivity|]. split; [exact C|].
    intros x y [].
  - open_tick k.
    assert (T : forall palm, inside_margins self
                  (smooth_towards (_last_cursor_pos self)
                     (screen_target self palm frame_w frame_h))).
    { intros palm. apply smooth_towards_inside; [exact C|].
      now apply screen_target_inside. }
    specialize (T (palm_center hd)).
    unfold cursor_ok, moves_inside in *.
    open_controller self.
    destruct g, held, dr, vm, sm; dispatch; dispatch_cases;
      (split; [reflexivity|]); (split; [reflexivity|]);
      (split; [solve [exact C | right; exact T]|]);
      intros x y I;
      rewrite ?in_app_iff in I; cbn [In] in I;
      repeat match type of I with
             | _ \/ _ => destruct I as [I|I]
             end;
      try discriminate I; try contradiction;
      try (unfold times in I; apply repeat_spec in I; discriminate I);
      try (inversion I; subst; rewrite <- surjective_pairing; exact T).
Qed.

(** X21: the pointer stays inside the screen margins.  On a screen at
    least 60 pixels wide and high, every [moveTo] made by any sequence of
    calls from a fresh controller targets a point at least [SCREEN_MARGIN]
    pixels from each edge. *)
Theorem cursor_stays_inside_margins (size : Z * Z) (ticks : list Tick) :
  2 * Config.SCREEN_MARGIN <= fst size ->
  2 * Config.SCREEN_MARGIN <= snd size ->
  Forall (moves_inside (new_controller size))
         (snd (run (new_controller size) ticks)).
Proof.
  intros W H.
  assert (Gen : forall self,
             screen_width self = fst size ->
             screen_height self = snd size ->
             cursor_ok self ->
             Forall (moves_inside (new_controller size))
                    (snd (run self ticks))).
  { induction ticks as [|k ticks IH]; intros self Ew Eh C.
    - constructor.
    - rewrite run_cons. cbn [snd].
      destruct (cursor_inside_call self k) as (Ew' & Eh' & C' & M);
        [rewrite Ew; exact W | rewrite Eh; exact H | exact C |].
      constructor.
      + intros x y I. specialize (M x y I).
        unfold inside_margins in *. cbn [new_controller screen_width
          screen_height]. rewrite <- Ew, <- Eh. exact M.
      + apply IH; [congruence | congruence | exact C']. }
  apply Gen; [reflexivity | reflexivity | left; reflexivity].
Qed.

Lemma cursor_stays_inside_margins_witness :
  Forall (moves_inside (new_controller (1920, 1080)))
         (snd (run (new_controller (1920, 1080))
                   [ Samples.tick OPEN_PALM true (-50) 900 10;
                     Samples.tick FIST true 640 0 11 ])).
Proof.
  apply (cursor_stays_inside_margins (1920, 1080)); cbn; lia.
Defined.

Lemma inject_Z_pos (w : Z) : 0 < w -> (0 < inject_Z w)%Q.
Proof. intros P. unfold Qlt. cbn. lia. Qed.

(** One axis of [screen_target] for a palm in the outer fifth of the
    frame on the low side. *)
Lemma axis_low (p : Q) (w size : Z) :
  0 < w -> (p <= inject_Z w * (2 # 10))%Q ->
  Z.max Config.SCREEN_MARGIN
    (Z.min (py_int
              (fmax 0 (fmin 1 ((p - inject_Z w * (2 # 10))
                               / (inject_Z w - 2 * (inject_Z w * (2 # 10)))))
               * inject_Z size))
           (size - Config.SCREEN_MARGIN))
  = Config.SCREEN_MARGIN.
Proof.
  intros P E. pose proof (inject_Z_pos w P) as Pw.
  generalize dependent (inject_Z w). intros x E Pw.
  assert (Q0 : ((p - x * (2 # 10)) / (x - 2 * (x * (2 # 10))) <= 0)%Q).
  { apply Qle_shift_div_r; lra. }
  set (q := (_ / _)%Q) in *.
  assert (A : fmin 1 q = q).
  { unfold fmin. replace (ltb q 1) with true; [reflexivity|].
    symmetry. apply ltb_lt. lra. }
  assert (B : fmax 0 q = 0%Q).
  { unfold fmax. replace (ltb 0 q) with false; [reflexivity|].
    symmetry. now apply ltb_ge. }
  rewrite A, B. unfold py_int, Config.SCREEN_MARGIN. cbn. lia.
Qed.

(** The same on the high side. *)
Lemma axis_high (p : Q) (w size : Z) :
  0 < w -> (inject_Z w * (8 # 10) <= p)%Q ->
  Z.max Config.SCREEN_MARGIN
    (Z.min (py_int
              (fmax 0 (fmin 1 ((p - inject_Z w * (2 # 10))
                               / (inject_Z w - 2 * (inject_Z w * (2 # 10)))))
               * inject_Z size))
           (size - Config.SCREEN_MARGIN))
  = Z.max Config.SCREEN_MARGIN (size - Config.SCREEN_MARGIN).
Proof.
  intros P E. pose proof (inject_Z_pos w P) as Pw.
  generalize dependent (inject_Z w). intros x E Pw.
  assert (Q1 : (1 <= (p - x * (2 # 10)) / (x - 2 * (x * (2 # 10))))%Q).
  { apply Qle_shift_div_l; lra. }
  set (q := (_ / _)%Q) in *.
  assert (A : fmin 1 q = 1%Q).
  { unfold fmin. replace (ltb q 1) with false; [reflexivity|].
    symmetry. now apply ltb_ge. }
  rewrite A. change (fmax 0 1) with 1%Q.
  unfold py_int, Config.SCREEN_MARGIN.
  cbn [Qnum Qden Qmult inject_Z Pos.mul].
  rewrite Z.quot_1_r. lia.
Qed.

(** X22: only the central three fifths of the camera frame are used.  On
    a frame of positive width, a palm in the left fifth of the frame is
    mapped to the left margin of the screen and a palm in the right fifth
    to the right margin; likewise for the height. *)
Theorem outer_fifth_maps_to_margin (self : JarvisController)
        (palm_pos : ndarray) (frame_w frame_h : Z) :
  0 < frame_w -> 0 < frame_h ->
  let target := screen_target self palm_pos frame_w frame_h in
  ((idx palm_pos 0 <= inject_Z frame_w * (2 # 10))%Q ->
   fst target = Config.SCREEN_MARGIN)
  /\ ((inject_Z frame_w * (8 # 10) <= idx palm_pos 0)%Q ->
      fst target
      = Z.max Config.SCREEN_MARGIN (screen_width self - Config.SCREEN_MARGIN))
  /\ ((idx palm_pos 1 <= inject_Z frame_h * (2 # 10))%Q ->
      snd target = Config.SCREEN_MARGIN)
  /\ ((inject_Z frame_h * (8 # 10) <= idx palm_pos 1)%Q ->
      snd target
      = Z.max Config.SCREEN_MARGIN
              (screen_height self - Config.SCREEN_MARGIN)).
Proof.
  intros W H target. unfold target, screen_target. cbn [fst snd].
  repeat split; intros E.
  - now apply axis_low.
  - now apply axis_high.
  - now apply axis_low.
  - now apply axis_high.
Qed.

Lemma outer_fifth_maps_to_margin_witness :
  screen_target Samples.start (palm_center (Samples.point_hand 100 400))
                640 480
  = (30, 1050).
Proof.
  pose proof (outer_fifth_maps_to_margin Samples.start
                (palm_center (Samples.point_hand 100 400)) 640 480
                eq_refl eq_refl) as (X & _ & _ & Y).
  rewrite (surjective_pairing (screen_target _ _ _ _)).
  rewrite X, Y by (cbn; discriminate). reflexivity.
Defined.

(** ** The gesture loop *)

(** A call whose gesture is not held can only release buttons. *)
Lemma not_held_only_releases self k :
  is_held (gesture_state k) = false ->
  Forall (eq mouseUp) (snd (_handle_gesture self k))
  /\ _gesture_cooldown (fst (_handle_gesture self k))
     = _gesture_cooldown self.
Proof.
  intros H.
  destruct (ltb (current_time k) (_gesture_cooldown self)) eqn:G.
  - rewrite (cooldown_gate _ _ G). cbn [fst snd]. auto.
  - open_tick k. open_controller self. subst held.
    destruct g, dr, vm, sm; dispatch; split;
      repeat constructor.
Qed.

(** X23: in the gesture loop a gesture does nothing on the frame it first
    appears in.  When an iteration changes the gesture the recognizer
    remembers, the calls it makes are [mouseUp] only (closing a drag or a
    selection) and the cooldown is not touched: clicks, scrolls, key
    presses and cursor moves start with the second frame of a gesture at
    the earliest. *)
Theorem new_gesture_only_releases (L : LinAlg) (available : bool)
        (recognizer recognizer' : GestureRecognizer)
        (self self' : JarvisController) (f : Frame) (calls : list Call) :
  loop_iteration available (recognizer, self) f
  = Some (recognizer', self', calls) ->
  _last_gesture recognizer' <> _last_gesture recognizer ->
  Forall (eq mouseUp) calls
  /\ _gesture_cooldown self' = _gesture_cooldown self.
Proof.
  unfold loop_iteration. intros E N.
  destruct (ret f); cbn [negb] in E; [|inversion E; subst; congruence].
  destruct (detect available (shape f) (found f)) as [[|hand hands]|];
    [inversion E; subst; congruence | | discriminate E].
  pose proof (recognize_remembers L recognizer hand (recognize_time f))
    as Last.
  pose proof (recognize_new L recognizer hand (recognize_time f)) as New.
  destruct (recognize recognizer hand (recognize_time f)) as [r gs].
  cbn [fst snd] in Last, New.
  set (k := mkTick gs hand (shape f) (handle_time f) (pointer_at f)) in E.
  pose proof (not_held_only_releases self k) as Rel.
  destruct (_handle_gesture self k) as [s c].
  inversion E; subst. cbn [fst snd] in Rel.
  apply Rel. cbn [gesture_state k]. apply New. congruence.
Qed.

Lemma new_gesture_only_releases_witness :
  let recognizer := mkRecognizer (Some FIST) 9 (1 # 2, 1 # 2)%Q in
  let self := fst (run Samples.start [Samples.tick FIST true 320 240 9]) in
  let f := mkFrame true (480, 640) [Samples.ok_raw] 10 10 (0, 0) in
  exists recognizer' self' calls,
    @loop_iteration Samples.euclid true (recognizer, self) f
    = Some (recognizer', self', calls)
    /\ _last_gesture recognizer' = Some OK_SIGN
    /\ calls = [mouseUp]
    /\ Forall (eq mouseUp) calls.
Proof.
  intros recognizer self f.
  destruct (@loop_iteration Samples.euclid true (recognizer, self) f)
    as [[[r s] c]|] eqn:E; [|vm_compute in E; discriminate E].
  assert (G : _last_gesture r = Some OK_SIGN /\ c = [mouseUp]).
  { vm_compute in E. inversion E. split; reflexivity. }
  destruct G as [G C].
  assert (N : _last_gesture r <> _last_gesture recognizer).
  { rewrite G. discriminate. }
  exists r, s, c. repeat split; try assumption.
  exact (proj1 (new_gesture_only_releases Samples.euclid true recognizer r
                  self s f c E N)).
Defined.

(** ** Detection results *)

Lemma py_int_mono (a b : Q) : (a <= b)%Q -> py_int a <= py_int b.
Proof.
  destruct a as [na da], b as [nb db]. unfold Qle, py_int. cbn [Qnum Qden].
  intros Le.
  rewrite <- (Z.quot_mul_cancel_r na (Z.pos da) (Z.pos db)) by lia.
  rewrite <- (Z.quot_mul_cancel_r nb (Z.pos db) (Z.pos da)) by lia.
  rewrite (Z.mul_comm (Z.pos db) (Z.pos da)).
  apply Z.quot_le_mono; lia.
Qed.

Lemma fold_min_le (xs : list Q) : forall m0,
  let m := fold_left (fun m y => if ltb y m then y else m) xs m0 in
  (m <= m0)%Q /\ forall x, In x xs -> (m <= x)%Q.
Proof.
  induction xs as [|y xs IH]; intros m0; cbn [fold_left].
  - split; [apply Qle_refl | intros x []].
  - destruct (IH (if ltb y m0 then y else m0)) as [A B]. cbv zeta in *.
    destruct (ltb y m0) eqn:E;
      [apply ltb_lt in E | apply ltb_ge in E];
      (split; [lra | intros x [<-|I]; [lra | now apply B]]).
Qed.

Lemma fold_max_ge (xs : list Q) : forall m0,
  let m := fold_left (fun m y => if ltb m y then y else m) xs m0 in
  (m0 <= m)%Q /\ forall x, In x xs -> (x <= m)%Q.
Proof.
  induction xs as [|y xs IH]; intros m0; cbn [fold_left].
  - split; [apply Qle_refl | intros x []].
  - destruct (IH (if ltb m0 y then y else m0)) as [A B]. cbv zeta in *.
    destruct (ltb m0 y) eqn:E;
      [apply ltb_lt in E | apply ltb_ge in E];
      (split; [lra | intros x [<-|I]; [lra | now apply B]]).
Qed.

Lemma py_min_le xs m : py_min xs = Some m -> forall x, In x xs -> (m <= x)%Q.
Proof.
  destruct xs as [|x0 xs]; [discriminate|]. intros E. inversion E as [M].
  destruct (fold_min_le xs x0) as [A B]. cbv zeta in *.
  intros x [<-|I]; [exact A | now apply B].
Qed.

Lemma py_max_ge xs m : py_max xs = Some m -> forall x, In x xs -> (x <= m)%Q.
Proof.
  destruct xs as [|x0 xs]; [discriminate|]. intros E. inversion E as [M].
  destruct (fold_max_ge xs x0) as [A B]. cbv zeta in *.
  intros x [<-|I]; [exact A | now apply B].
Qed.

(** X24: the bounding box [detect] computes contains every landmark.  For
    a hand built by [detect], each landmark's pixel (its x and y truncated
    as the box corners are) lies within the box, whose width and height
    are not negative. *)
Theorem bbox_contains_landmarks (w h : Z) (r : RawHand)
        (hand : HandLandmarks) :
  detect_hand w h r = Some hand ->
  let '(bx, by_, bw, bh) := bbox hand in
  0 <= bw /\ 0 <= bh
  /\ forall row, In row (landmarks hand) ->
                 bx <= py_int (idx row 0) <= bx + bw
                 /\ by_ <= py_int (idx row 1) <= by_ + bh.
Proof.
  unfold detect_hand, bounding_box.
  set (lms := scale_landmarks (raw_landmarks r) w h).
  destruct (py_min (map (fun row => idx row 0) lms)) as [xmin|] eqn:Xmin;
    [|discriminate].
  destruct (py_max (map (fun row => idx row 0) lms)) as [xmax|] eqn:Xmax;
    [|discriminate].
  destruct (py_min (map (fun row => idx row 1) lms)) as [ymin|] eqn:Ymin;
    [|discriminate].
  destruct (py_max (map (fun row => idx row 1) lms)) as [ymax|] eqn:Ymax;
    [|discriminate].
  intros E. inversion E; subst hand. cbn [bbox landmarks].
  assert (In_x : forall row, In row lms ->
                 py_int xmin <= py_int (idx row 0) <= py_int xmax).
  { intros row I. split; apply py_int_mono.
    - apply (py_min_le _ _ Xmin). now apply (in_map (fun row => idx row 0)).
    - apply (py_max_ge _ _ Xmax). now apply (in_map (fun row => idx row 0)). }
  assert (In_y : forall row, In row lms ->
                 py_int ymin <= py_int (idx row 1) <= py_int ymax).
  { intros row I. split; apply py_int_mono.
    - apply (py_min_le _ _ Ymin). now apply (in_map (fun row => idx row 1)).
    - apply (py_max_ge _ _ Ymax). now apply (in_map (fun row => idx row 1)). }
  destruct lms as [|row0 lms']; [discriminate Xmin|].
  pose proof (In_x row0 (or_introl eq_refl)).
  pose proof (In_y row0 (or_introl eq_refl)).
  split; [lia|]. split; [lia|].
  intros row I. specialize (In_x row I). specialize (In_y row I). lia.
Qed.

Lemma bbox_contains_landmarks_witness :
  exists hand,
    detect_hand 640 480 Samples.ok_raw = Some hand
    /\ bbox hand = (-80, 0, 160, 110)
    /\ forall row, In row (landmarks hand) ->
                   -80 <= py_int (idx row 0) <= 80
                   /\ 0 <= py_int (idx row 1) <= 110.
Proof.
  destruct (detect_hand 640 480 Samples.ok_raw) as [hand|] eqn:E;
    [|vm_compute in E; discriminate E].
  pose proof (bbox_contains_landmarks 640 480 Samples.ok_raw hand E) as B.
  exists hand. split; [reflexivity|].
  vm_compute in E. injection E as <-. split; [reflexivity|].
  cbn [bbox] in B. destruct B as (_ & _ & B). exact B.
Defined.

Lemma detect_hand_some w h r :
  raw_landmarks r <> [] ->
  exists hand,
    detect_hand w h r = Some hand
    /\ List.length (landmarks hand) = List.length (raw_landmarks r)
    /\ handedness hand = raw_label r
    /\ confidence hand = raw_score r.
Proof.
  intros N. unfold detect_hand, bounding_box, scale_landmarks.
  destruct (raw_landmarks r) as [|[[x y] z] raw]; [congruence|].
  cbn [map py_min py_max]. eexists. split; [reflexivity|].
  cbn [landmarks handedness confidence List.length]. rewrite length_map.
  auto.
Qed.

(** X25: [detect] keeps the hands MediaPipe found.  With the detector
    available and at least one landmark in every hand (MediaPipe gives
    21), [detect] returns one [HandLandmarks] per hand, in the same order,
    each with as many landmark rows as the hand had landmarks and with its
    label and score; when the detector is not available it returns the
    empty list. *)
Theorem detect_keeps_hands (available : bool) (frame_shape : Z * Z)
        (results : list RawHand) :
  Forall (fun r => raw_landmarks r <> []) results ->
  exists hands,
    detect available frame_shape results = Some hands
    /\ (available = false -> hands = [])
    /\ (available = true ->
        Forall2 (fun r hand =>
                   List.length (landmarks hand)
                   = List.length (raw_landmarks r)
                   /\ handedness hand = raw_label r
                   /\ confidence hand = raw_score r)
                results hands).
Proof.
  intros F. unfold detect. destruct available; cbn [negb].
  - destruct frame_shape as [h w].
    induction F as [|r results N _ IH].
    + exists []. split; [reflexivity|]. split; [discriminate|].
      intros _. constructor.
    + destruct (detect_hand_some w h r N) as (hand & E & P).
      destruct IH as (hands & Eh & _ & Ph).
      exists (hand :: hands). cbn [detect_hands]. rewrite E, Eh.
      split; [reflexivity|]. split; [discriminate|].
      intros _. constructor; auto.
  - exists []. split; [reflexivity|]. split; [reflexivity | discriminate].
Qed.

Lemma detect_keeps_hands_witness :
  exists hand,
    detect true (480, 640) [Samples.ok_raw] = Some [hand]
    /\ List.length (landmarks hand) = 21%nat.
Proof.
  destruct (detect_keeps_hands true (480, 640) [Samples.ok_raw])
    as (hands & E & _ & P).
  { repeat constructor. discriminate. }
  specialize (P eq_refl). inversion P as [|r hand rs hs (Len & _) Rest];
    subst. inversion Rest; subst.
  exists hand. split; [exact E | exact Len].
Defined.
